(** * Gaussian-splat viewer: binary PLY decoder and orbit camera

    A shallow embedding of [parsePlyFile] (the PLY decoder) and of the
    pointer and wheel handlers installed by [SplatRenderer.initInputHandlers]
    (the orbit camera), with the properties of the specification stated
    against them.

    Conventions of the embedding:
    - a JavaScript string is a [string]; [TextDecoder('ascii')] maps every
      byte to exactly one UTF-16 code unit, so the decoded text keeps one
      character per byte and the model keeps the byte value as the
      character;
    - the [ArrayBuffer] is a [list byte];
    - a thrown exception is the [Throw] case of [result];
    - a JavaScript number that holds a count or an index is a [nat] or a
      [Z]; [NaN] as the outcome of [parseInt] is [None];
    - a JavaScript number that holds a measured quantity (a coordinate, an
      angle, a colour channel) is an element of an abstract carrier [num]
      with the operations of the [JSNumber] interface. *)

From Stdlib Require Import ZArith List String Ascii Strings.Byte.
From Stdlib Require Import QArith Qreals Reals Lra Lia.
From stdpp Require Import base list.
Import ListNotations.

Open Scope string_scope.

(** ** Exceptions *)

Inductive exn : Type :=
| Error (message : string)
| RangeError.

Inductive result (A : Type) : Type :=
| Ok (a : A)
| Throw (e : exn).
Arguments Ok {A} a.
Arguments Throw {A} e.

Definition bind {A B : Type} (r : result A) (k : A -> result B) : result B :=
  match r with
  | Ok a => k a
  | Throw e => Throw e
  end.

Notation "'try!' x ':=' r 'in' k" := (bind r (fun x => k))
  (at level 10, x pattern, r at level 100, k at level 200).

(** ** The string methods used by the decoder *)

Module JS.

Definition LF : ascii := "010"%char.

(** [WhiteSpace] and [LineTerminator] code points that a single-byte
    decoding can produce: TAB, LF, VT, FF, CR, SPACE and NBSP. *)
Definition isWhiteSpace (c : ascii) : bool :=
  let n := nat_of_ascii c in
  ((9 <=? n)%nat && (n <=? 13)%nat) || (n =? 32)%nat || (n =? 160)%nat.

Fixpoint trimStart (s : string) : string :=
  match s with
  | EmptyString => EmptyString
  | String c s' => if isWhiteSpace c then trimStart s' else s
  end.

Fixpoint trimEnd (s : string) : string :=
  match s with
  | EmptyString => EmptyString
  | String c s' =>
      match trimEnd s' with
      | EmptyString => if isWhiteSpace c then EmptyString else String c EmptyString
      | t => String c t
      end
  end.

(** [String.prototype.trim] *)
Definition trim (s : string) : string := trimEnd (trimStart s).

(** [String.prototype.split] with a one-character separator. *)
Fixpoint split (sep : ascii) (s : string) : list string :=
  match s with
  | EmptyString => [EmptyString]
  | String c s' =>
      if Ascii.eqb c sep then EmptyString :: split sep s'
      else match split sep s' with
           | [] => [String c EmptyString]
           | w :: ws => String c w :: ws
           end
  end.

(** [Array.prototype.join] *)
Fixpoint join (sep : string) (l : list string) : string :=
  match l with
  | [] => EmptyString
  | x :: rest =>
      match rest with
      | [] => x
      | _ :: _ => x ++ sep ++ join sep rest
      end
  end.

(** [String.prototype.startsWith] *)
Definition startsWith (p s : string) : bool := String.prefix p s.

(** [String.prototype.includes] *)
Fixpoint includes (p s : string) : bool :=
  String.prefix p s ||
  match s with
  | EmptyString => false
  | String _ s' => includes p s'
  end.

Definition digitVal (c : ascii) : option Z :=
  let n := nat_of_ascii c in
  if ((48 <=? n)%nat && (n <=? 57)%nat)%bool then Some (Z.of_nat (n - 48)) else None.

Fixpoint parseDigits (acc : option Z) (s : string) : option Z :=
  match s with
  | EmptyString => acc
  | String c s' =>
      match digitVal c with
      | Some d => parseDigits (Some (10 * default 0%Z acc + d)%Z) s'
      | None => acc
      end
  end.

(** [parseInt(s, 10)]; [None] is [NaN], and so is the outcome on
    [undefined]. *)
Definition parseInt (s : option string) : option Z :=
  match s with
  | None => None
  | Some s =>
      match trimStart s with
      | String "-"%char t => option_map Z.opp (parseDigits None t)
      | String "+"%char t => parseDigits None t
      | t => parseDigits None t
      end
  end.

(** [Math.min] on a count that may be [NaN]. *)
Definition min_count (a : option Z) (b : Z) : option Z :=
  option_map (fun z => Z.min z b) a.

(** [TextDecoder('ascii').decode] *)
Definition decodeAscii (bs : list byte) : string := string_of_list_byte bs.

End JS.

(** ** The header scan of [parsePlyFile] *)

Module Header.
Import JS.

Record Property : Type := mkProperty {
    name : option string;
    type : option string
  }.

(** The variables the scanning loop updates. [endHeaderIndex] is [-1]
    until the [end_header] line is met. *)
Record Scan : Type := mkScan {
    headerOffset : nat;
    endHeaderIndex : Z;
    vertexCount : option Z;
    isBinary : bool;
    inVertexElement : bool;
    properties : list Property
  }.

Definition initScan : Scan :=
  {| headerOffset := 0; endHeaderIndex := (-1)%Z; vertexCount := Some 0%Z;
     isBinary := false; inVertexElement := false; properties := [] |}.

Definition set_headerOffset (n : nat) (s : Scan) : Scan :=
  mkScan n (endHeaderIndex s) (vertexCount s) (isBinary s) (inVertexElement s) (properties s).
Definition set_endHeaderIndex (i : Z) (s : Scan) : Scan :=
  mkScan (headerOffset s) i (vertexCount s) (isBinary s) (inVertexElement s) (properties s).
Definition set_vertexCount (v : option Z) (s : Scan) : Scan :=
  mkScan (headerOffset s) (endHeaderIndex s) v (isBinary s) (inVertexElement s) (properties s).
Definition set_isBinary (b : bool) (s : Scan) : Scan :=
  mkScan (headerOffset s) (endHeaderIndex s) (vertexCount s) b (inVertexElement s) (properties s).
Definition set_inVertexElement (b : bool) (s : Scan) : Scan :=
  mkScan (headerOffset s) (endHeaderIndex s) (vertexCount s) (isBinary s) b (properties s).
Definition push_property (p : Property) (s : Scan) : Scan :=
  mkScan (headerOffset s) (endHeaderIndex s) (vertexCount s) (isBinary s) (inVertexElement s)
         (properties s ++ [p]).

Definition msgUnsupported : string :=
  "Unsupported PLY format. Must be binary_little_endian 1.0".
Definition msgNotBinary : string := "PLY file is not binary.".

(** The [format] test of one line. *)
Definition checkFormat (line : string) (s : Scan) : result Scan :=
  if startsWith "format" line then
    if includes "binary_little_endian 1.0" line then Ok (set_isBinary true s)
    else Throw (Error msgUnsupported)
  else Ok s.

(** The [element] test of one line. *)
Definition checkElement (line : string) (s : Scan) : Scan :=
  if startsWith "element vertex" line then
    let parts := split " " line in
    set_inVertexElement true (set_vertexCount (parseInt (parts !! 2%nat)) s)
  else if startsWith "element" line && negb (includes "vertex" line) then
    set_inVertexElement false s
  else s.

(** The [property] test of one line. *)
Definition checkProperty (line : string) (s : Scan) : Scan :=
  if inVertexElement s && startsWith "property" line then
    let parts := split " " line in
    push_property {| name := parts !! 2%nat; type := parts !! 1%nat |} s
  else s.

(** The exact offset taken when [end_header] is met at index [i]. *)
Definition exactHeaderLength (headerLines : list string) (i : nat) : nat :=
  String.length (join (String LF EmptyString) (take (i + 1) headerLines)
                 ++ String LF EmptyString).

(** The loop over [headerLines], from index [i] on, [rest] being the
    lines not yet visited. *)
Fixpoint scanLines (headerLines rest : list string) (i : nat) (s : Scan)
  : result Scan :=
  match rest with
  | [] => Ok s
  | raw :: rest' =>
      let line := trim raw in
      let s := set_headerOffset (headerOffset s + (String.length line + 1)) s in
      if String.eqb line "end_header" then
        Ok (set_headerOffset (exactHeaderLength headerLines i)
              (set_endHeaderIndex (Z.of_nat i) s))
      else
        try! s := checkFormat line s in
        scanLines headerLines rest' (S i) (checkProperty line (checkElement line s))
  end.

Definition headerLinesOf (buffer : list byte) : list string :=
  split LF (decodeAscii (take 5000 buffer)).

Definition scanHeader (buffer : list byte) : result Scan :=
  let headerLines := headerLinesOf buffer in
  scanLines headerLines headerLines 0 initScan.

End Header.

(** ** JavaScript numbers

    The operations on numbers that the decoder and the camera use. The
    carrier is left abstract: every property proved over the interface
    holds for IEEE 754 doubles and for any idealisation of them. *)

Class JSNumber (num : Type) : Type := {
  (** the number denoted by a decimal literal *)
  lit : Q -> num;
  (** the value of a 32-bit pattern read as an IEEE 754 single *)
  f32_of_bits : Z -> num;
  (** the narrowing done by a store into a [Float32Array] *)
  to_f32 : num -> num;
  (** [a + b], [a - b], [a * b], [a / b], [-a], [a ** 2] *)
  fadd : num -> num -> num;
  fsub : num -> num -> num;
  fmul : num -> num -> num;
  fdiv : num -> num -> num;
  fneg : num -> num;
  fsqr : num -> num;
  Math_max : num -> num -> num;
  Math_min : num -> num -> num;
  Math_exp : num -> num;
  Math_sqrt : num -> num;
  Math_cos : num -> num;
  Math_sin : num -> num;
  Math_PI : num
}.

Arguments lit {num _} q%_Q.

Declare Scope num_scope.
Delimit Scope num_scope with num.
Infix "+" := fadd : num_scope.
Infix "-" := fsub : num_scope.
Infix "*" := fmul : num_scope.
Infix "/" := fdiv : num_scope.
Notation "- x" := (fneg x) : num_scope.

(** ** The vertex decoder of [parsePlyFile] *)

Module Ply.
Import JS Header.

Definition MAX_VERTEX_COUNT : Z := 1000000.

Section Decoder.
Context {num : Type} {N : JSNumber num}.

(** The returned object. [d_vertexCount] is its [vertexCount] field,
    set to [renderCount], which is [NaN] ([None]) when [parseInt] gave
    [NaN]. *)
Record ParsedSplatData : Type := mkData {
    d_vertexCount : option Z;
    positions : list num;
    scales : list num;
    rotations : list num;
    opacities : list num;
    colors : list num
  }.

(** The local variables of one iteration of the vertex loop. *)
Record Vertex : Type := mkVertex {
    v_x : num; v_y : num; v_z : num;
    v_r : num; v_g : num; v_b : num;
    v_opacity : num;
    v_sx : num; v_sy : num; v_sz : num;
    v_rw : num; v_rx : num; v_ry : num; v_rz : num
  }.

Definition defaultVertex : Vertex :=
  {| v_x := lit 0; v_y := lit 0; v_z := lit 0;
     v_r := lit 0.5; v_g := lit 0.5; v_b := lit 0.5;
     v_opacity := lit 1.0;
     v_sx := lit 0.1; v_sy := lit 0.1; v_sz := lit 0.1;
     v_rw := lit 1; v_rx := lit 0; v_ry := lit 0; v_rz := lit 0 |}.

Definition SH_C0 : Q := 0.28209479177387814.

(** The [switch (prop.name)] on a float value. *)
Definition assign (nm : option string) (value : num) (v : Vertex) : Vertex :=
  match nm with
  | None => v
  | Some n =>
    if String.eqb n "x" then
      mkVertex value (v_y v) (v_z v) (v_r v) (v_g v) (v_b v) (v_opacity v)
               (v_sx v) (v_sy v) (v_sz v) (v_rw v) (v_rx v) (v_ry v) (v_rz v)
    else if String.eqb n "y" then
      mkVertex (v_x v) value (v_z v) (v_r v) (v_g v) (v_b v) (v_opacity v)
               (v_sx v) (v_sy v) (v_sz v) (v_rw v) (v_rx v) (v_ry v) (v_rz v)
    else if String.eqb n "z" then
      mkVertex (v_x v) (v_y v) value (v_r v) (v_g v) (v_b v) (v_opacity v)
               (v_sx v) (v_sy v) (v_sz v) (v_rw v) (v_rx v) (v_ry v) (v_rz v)
    else if String.eqb n "scale_0" then
      mkVertex (v_x v) (v_y v) (v_z v) (v_r v) (v_g v) (v_b v) (v_opacity v)
               (Math_exp value) (v_sy v) (v_sz v) (v_rw v) (v_rx v) (v_ry v) (v_rz v)
    else if String.eqb n "scale_1" then
      mkVertex (v_x v) (v_y v) (v_z v) (v_r v) (v_g v) (v_b v) (v_opacity v)
               (v_sx v) (Math_exp value) (v_sz v) (v_rw v) (v_rx v) (v_ry v) (v_rz v)
    else if String.eqb n "scale_2" then
      mkVertex (v_x v) (v_y v) (v_z v) (v_r v) (v_g v) (v_b v) (v_opacity v)
               (v_sx v) (v_sy v) (Math_exp value) (v_rw v) (v_rx v) (v_ry v) (v_rz v)
    else if String.eqb n "rot_0" then
      mkVertex (v_x v) (v_y v) (v_z v) (v_r v) (v_g v) (v_b v) (v_opacity v)
               (v_sx v) (v_sy v) (v_sz v) value (v_rx v) (v_ry v) (v_rz v)
    else if String.eqb n "rot_1" then
      mkVertex (v_x v) (v_y v) (v_z v) (v_r v) (v_g v) (v_b v) (v_opacity v)
               (v_sx v) (v_sy v) (v_sz v) (v_rw v) value (v_ry v) (v_rz v)
    else if String.eqb n "rot_2" then
      mkVertex (v_x v) (v_y v) (v_z v) (v_r v) (v_g v) (v_b v) (v_opacity v)
               (v_sx v) (v_sy v) (v_sz v) (v_rw v) (v_rx v) value (v_rz v)
    else if String.eqb n "rot_3" then
      mkVertex (v_x v) (v_y v) (v_z v) (v_r v) (v_g v) (v_b v) (v_opacity v)
               (v_sx v) (v_sy v) (v_sz v) (v_rw v) (v_rx v) (v_ry v) value
    else if String.eqb n "opacity" then
      mkVertex (v_x v) (v_y v) (v_z v) (v_r v) (v_g v) (v_b v)
               (lit 1 / (lit 1 + Math_exp (- value)))%num
               (v_sx v) (v_sy v) (v_sz v) (v_rw v) (v_rx v) (v_ry v) (v_rz v)
    else if String.eqb n "f_dc_0" then
      mkVertex (v_x v) (v_y v) (v_z v) (lit 0.5 + lit SH_C0 * value)%num (v_g v) (v_b v)
               (v_opacity v)
               (v_sx v) (v_sy v) (v_sz v) (v_rw v) (v_rx v) (v_ry v) (v_rz v)
    else if String.eqb n "f_dc_1" then
      mkVertex (v_x v) (v_y v) (v_z v) (v_r v) (lit 0.5 + lit SH_C0 * value)%num (v_b v)
               (v_opacity v)
               (v_sx v) (v_sy v) (v_sz v) (v_rw v) (v_rx v) (v_ry v) (v_rz v)
    else if String.eqb n "f_dc_2" then
      mkVertex (v_x v) (v_y v) (v_z v) (v_r v) (v_g v) (lit 0.5 + lit SH_C0 * value)%num
               (v_opacity v)
               (v_sx v) (v_sy v) (v_sz v) (v_rw v) (v_rx v) (v_ry v) (v_rz v)
    else v
  end.

Definition type_is (t : option string) (s : string) : bool :=
  match t with
  | Some t => String.eqb t s
  | None => false
  end.

Definition isFloat (t : option string) : bool :=
  type_is t "float" || type_is t "float32".

(** The cursor advance of a property that is not a float: nothing
    for a type outside the three tested ones. *)
Definition skipWidth (t : option string) : nat :=
  if type_is t "uchar" || type_is t "uint8" then 1
  else if type_is t "int" || type_is t "int32" then 4
  else if type_is t "double" then 8
  else 0.

(** The bit pattern of four bytes, least significant first. *)
Definition le32 (b0 b1 b2 b3 : byte) : Z :=
  let z (b : byte) := Z.of_N (Byte.to_N b) in
  Z.lor (Z.lor (Z.lor (z b0) (Z.shiftl (z b1) 8)) (Z.shiftl (z b2) 16))
        (Z.shiftl (z b3) 24).

(** [dataView.getFloat32(byteOffset, true)]: a [RangeError] unless
    four bytes are there. *)
Definition getFloat32 (buffer : list byte) (byteOffset : nat) : result num :=
  match take 4 (drop byteOffset buffer) with
  | [b0; b1; b2; b3] => Ok (f32_of_bits (le32 b0 b1 b2 b3))
  | _ => Throw RangeError
  end.

(** The loop over the properties for one vertex. *)
Fixpoint decodeProps (buffer : list byte) (props : list Property)
         (byteOffset : nat) (v : Vertex) : result (nat * Vertex) :=
  match props with
  | [] => Ok (byteOffset, v)
  | prop :: props' =>
      if isFloat (type prop) then
        try! value := getFloat32 buffer byteOffset in
        decodeProps buffer props' (byteOffset + 4) (assign (name prop) value v)
      else
        decodeProps buffer props' (byteOffset + skipWidth (type prop)) v
  end.

Definition clamp01 (c : num) : num := Math_max (lit 0) (Math_min (lit 1) c).

(** The stores of one vertex into the five typed arrays. *)
Definition store (i : nat) (v : Vertex) (d : ParsedSplatData) : ParsedSplatData :=
  {| d_vertexCount := d_vertexCount d;
     positions :=
       <[i * 3 + 2 := to_f32 (v_z v)]>
         (<[i * 3 + 1 := to_f32 (v_y v)]>
            (<[i * 3 + 0 := to_f32 (v_x v)]> (positions d)));
     scales :=
       <[i * 3 + 2 := to_f32 (v_sz v)]>
         (<[i * 3 + 1 := to_f32 (v_sy v)]>
            (<[i * 3 + 0 := to_f32 (v_sx v)]> (scales d)));
     rotations :=
       <[i * 4 + 3 := to_f32 (v_rz v)]>
         (<[i * 4 + 2 := to_f32 (v_ry v)]>
            (<[i * 4 + 1 := to_f32 (v_rx v)]>
               (<[i * 4 + 0 := to_f32 (v_rw v)]> (rotations d))));
     opacities := <[i := to_f32 (v_opacity v)]> (opacities d);
     colors :=
       <[i * 3 + 2 := to_f32 (clamp01 (v_b v))]>
         (<[i * 3 + 1 := to_f32 (clamp01 (v_g v))]>
            (<[i * 3 + 0 := to_f32 (clamp01 (v_r v))]> (colors d))) |}.

(** The vertex loop, [todo] iterations from index [i] on. *)
Fixpoint decodeLoop (buffer : list byte) (props : list Property)
         (todo i byteOffset : nat) (d : ParsedSplatData) : result ParsedSplatData :=
  match todo with
  | O => Ok d
  | S todo' =>
      if (length buffer <=? byteOffset)%nat then Ok d
      else
        try! r := decodeProps buffer props byteOffset defaultVertex in
        decodeLoop buffer props todo' (S i) (fst r) (store i (snd r) d)
  end.

(** [new Float32Array(n)]: zero-filled; length 0 on [NaN]; a
    [RangeError] on a negative length. *)
Definition newFloat32Array (n : option Z) : result (list num) :=
  match n with
  | None => Ok []
  | Some z => if (z <? 0)%Z then Throw RangeError
              else Ok (replicate (Z.to_nat z) (to_f32 (lit 0)))
  end.

Definition times (n : option Z) (k : Z) : option Z :=
  option_map (fun z => (z * k)%Z) n.

(** The number of iterations of [for (i = 0; i < renderCount; i++)]. *)
Definition iterations (renderCount : option Z) : nat :=
  match renderCount with
  | Some z => Z.to_nat z
  | None => 0
  end.

Definition parsePlyFile (buffer : list byte) : result ParsedSplatData :=
  try! h := scanHeader buffer in
  if negb (isBinary h) then Throw (Error msgNotBinary)
  else
    let renderCount := min_count (vertexCount h) MAX_VERTEX_COUNT in
    try! positions := newFloat32Array (times renderCount 3) in
    try! scales := newFloat32Array (times renderCount 3) in
    try! rotations := newFloat32Array (times renderCount 4) in
    try! opacities := newFloat32Array renderCount in
    try! colors := newFloat32Array (times renderCount 3) in
    decodeLoop buffer (properties h) (iterations renderCount) 0 (headerOffset h)
      (mkData renderCount positions scales rotations opacities colors).

End Decoder.

Arguments ParsedSplatData : clear implicits.
Arguments Vertex : clear implicits.
End Ply.

(** ** The orbit camera of [SplatRenderer] *)

Module Camera.

Section Handlers.
Context {num : Type} {N : JSNumber num}.

Record Vec3 : Type := mkVec3 { x3 : num; y3 : num; z3 : num }.
Record Vec2 : Type := mkVec2 { x2 : num; y2 : num }.

(** The camera and interaction fields of the renderer. In [camRot],
    [x2] is the pitch and [y2] the yaw. *)
Record State : Type := mkState {
    target : Vec3;
    radius : num;
    camRot : Vec2;
    isDragging : bool;
    dragButton : Z;
    lastMouse : Vec2
  }.

Definition initial : State :=
  {| target := mkVec3 (lit 0) (lit 0) (lit 0);
     radius := lit 5;
     camRot := mkVec2 (lit 0) (lit 0);
     isDragging := false;
     dragButton := (-1)%Z;
     lastMouse := mkVec2 (lit 0) (lit 0) |}.

Definition pitch (s : State) : num := x2 (camRot s).
Definition yaw (s : State) : num := y2 (camRot s).

Definition mousedown (button : Z) (clientX clientY : num) (s : State) : State :=
  mkState (target s) (radius s) (camRot s) true button (mkVec2 clientX clientY).

Definition mouseup (s : State) : State :=
  mkState (target s) (radius s) (camRot s) false (-1)%Z (lastMouse s).

Definition pitchMin : num := (- Math_PI / lit 2 + lit 0.01)%num.
Definition pitchMax : num := (Math_PI / lit 2 - lit 0.01)%num.

(** The branch [dragButton === 0] of the [mousemove] handler. *)
Definition rotate (dx dy : num) (s : State) : State :=
  let rx := (x2 (camRot s) - dy * lit 0.005)%num in
  let ry := (y2 (camRot s) - dx * lit 0.005)%num in
  let rx := Math_max pitchMin (Math_min pitchMax rx) in
  mkState (target s) (radius s) (mkVec2 rx ry)
          (isDragging s) (dragButton s) (lastMouse s).

(** The camera basis computed by the pan branch: [right] and the
    real up vector [u]. *)
Definition panBasis (s : State) : Vec3 * Vec3 :=
  let cy := Math_cos (y2 (camRot s)) in
  let sy := Math_sin (y2 (camRot s)) in
  let cp := Math_cos (x2 (camRot s)) in
  let sp := Math_sin (x2 (camRot s)) in
  let z := radius s in
  let cx := (cy * cp * z)%num in
  let cy_pos := (sp * z)%num in
  let cz := (sy * cp * z)%num in
  let eye := mkVec3 cx cy_pos cz in
  let up := mkVec3 (lit 0) (lit 1) (lit 0) in
  let fwdVec := mkVec3 (- x3 eye)%num (- y3 eye)%num (- z3 eye)%num in
  let len := Math_sqrt (fsqr (x3 fwdVec) + fsqr (y3 fwdVec) + fsqr (z3 fwdVec))%num in
  let f := mkVec3 (x3 fwdVec / len)%num (y3 fwdVec / len)%num (z3 fwdVec / len)%num in
  let r := mkVec3 (y3 up * z3 f - z3 up * y3 f)%num
                  (z3 up * x3 f - x3 up * z3 f)%num
                  (x3 up * y3 f - y3 up * x3 f)%num in
  let rLen := Math_sqrt (fsqr (x3 r) + fsqr (y3 r) + fsqr (z3 r))%num in
  let right := mkVec3 (x3 r / rLen)%num (y3 r / rLen)%num (z3 r / rLen)%num in
  let u := mkVec3 (y3 f * z3 right - z3 f * y3 right)%num
                  (z3 f * x3 right - x3 f * z3 right)%num
                  (x3 f * y3 right - y3 f * x3 right)%num in
  (right, u).

(** The branch [dragButton === 2] of the [mousemove] handler. *)
Definition pan (dx dy : num) (s : State) : State :=
  let panSpeed := (radius s * lit 0.0015)%num in
  let right := fst (panBasis s) in
  let u := snd (panBasis s) in
  let t := target s in
  mkState
    (mkVec3 (x3 t - (x3 right * dx - x3 u * dy) * panSpeed)%num
            (y3 t - (y3 right * dx - y3 u * dy) * panSpeed)%num
            (z3 t - (z3 right * dx - z3 u * dy) * panSpeed)%num)
    (radius s) (camRot s) (isDragging s) (dragButton s) (lastMouse s).

Definition mousemove (clientX clientY : num) (s : State) : State :=
  if negb (isDragging s) then s
  else
    let dx := (clientX - x2 (lastMouse s))%num in
    let dy := (clientY - y2 (lastMouse s))%num in
    let s := mkState (target s) (radius s) (camRot s) (isDragging s) (dragButton s)
                     (mkVec2 clientX clientY) in
    if (dragButton s =? 0)%Z then rotate dx dy s
    else if (dragButton s =? 2)%Z then pan dx dy s
    else s.

Definition wheel (deltaY : num) (s : State) : State :=
  let zoomScale := lit 0.1 in
  let r := (radius s + deltaY * lit 0.01 * (radius s * zoomScale))%num in
  mkState (target s) (Math_max (lit 0.1) r) (camRot s)
          (isDragging s) (dragButton s) (lastMouse s).

End Handlers.

Arguments Vec3 : clear implicits.
Arguments Vec2 : clear implicits.
Arguments State : clear implicits.
End Camera.

(** ** Real numbers as an idealisation of the doubles

    Arithmetic without rounding, overflow or [NaN]. A bit pattern with the
    exponent field 255 (an infinity or a [NaN]) has no real value; it is
    sent to 0, and no statement below reads such a pattern. *)

Module Real.

(** The sign, exponent and fraction fields of a single. *)
Definition parts (bits : Z) : bool * Z * Z :=
  (Z.testbit bits 31, Z.land (Z.shiftr bits 23) 255, Z.land bits 8388607).

(** The magnitude of a single as a quotient of integers: subnormal when
    the exponent field is 0, no real value when it is 255. *)
Definition magnitude (e m : Z) : Z * Z :=
  if (e =? 0)%Z then (m, 2 ^ 149)%Z
  else if (e =? 255)%Z then (0, 1)%Z
  else if (150 <=? e)%Z then ((m + 8388608) * 2 ^ (e - 150), 1)%Z
  else (m + 8388608, 2 ^ (150 - e))%Z.

Definition quotient (bits : Z) : Z * Z :=
  match parts bits with
  | (s, e, m) =>
      let q := magnitude e m in
      (if s then (- fst q)%Z else fst q, snd q)
  end.

Definition R_of_f32_bits (bits : Z) : R :=
  (IZR (fst (quotient bits)) / IZR (snd (quotient bits)))%R.

#[export] Instance RNumber : JSNumber R := {|
    lit := Q2R;
    f32_of_bits := R_of_f32_bits;
    to_f32 := fun x => x;
    fadd := Rplus;
    fsub := Rminus;
    fmul := Rmult;
    fdiv := Rdiv;
    fneg := Ropp;
    fsqr := fun x => (x * x)%R;
    Math_max := Rmax;
    Math_min := Rmin;
    Math_exp := exp;
    Math_sqrt := sqrt;
    Math_cos := cos;
    Math_sin := sin;
    Math_PI := PI
  |}.

End Real.

Module CameraSpec.
Import Camera.

Section Generic.
Context {num : Type} {N : JSNumber num}.

(** A sequence of Rotate operations, each given by its pointer
    deltas [(dx, dy)]. *)
Definition rotateAll (ops : list (num * num)) (s : State num) : State num :=
  fold_left (fun s op => rotate (fst op) (snd op) s) ops s.
End Generic.
End CameraSpec.

(** ** Notions the statements about the decoder use *)

Module PlySpec.
Import JS Header Ply.

(** The text made of the given lines, each closed by a line feed. *)
Fixpoint unlines (ls : list string) : string :=
  match ls with
  | [] => EmptyString
  | l :: rest => l ++ String LF (unlines rest)
  end.

Fixpoint hasLF (s : string) : bool :=
  match s with
  | EmptyString => false
  | String c s' => Ascii.eqb c LF || hasLF s'
  end.

Definition isEndHeader (raw : string) : bool := String.eqb (trim raw) "end_header".

(** The lines the scan visits before it stops: the trimmed lines that
    precede the first [end_header] line, or all of them when there is
    none. *)
Fixpoint linesBeforeEnd (raws : list string) : list string :=
  match raws with
  | [] => []
  | raw :: rest =>
      if isEndHeader raw then [] else trim raw :: linesBeforeEnd rest
  end.

Definition scannedLines (buffer : list byte) : list string :=
  linesBeforeEnd (headerLinesOf buffer).

Definition isFormatLine (line : string) : bool := startsWith "format" line.
Definition isLittleEndianBinary (line : string) : bool :=
  includes "binary_little_endian 1.0" line.

(** The running sum the loop keeps while it has not met [end_header]:
    the trimmed length of every line, plus one. *)
Definition runningSum (raws : list string) : nat :=
  fold_left (fun acc raw => acc + (String.length (trim raw) + 1)) raws 0.

(** A header line the scan passes over without stopping or throwing:
    one line of text, not the [end_header] line, and not a [format] line
    of another format. *)
Definition passes (l : string) : Prop :=
  hasLF l = false /\ isEndHeader l = false /\
  (isFormatLine (trim l) = true -> isLittleEndianBinary (trim l) = true).

(** The two throw sites of the format check: the categories the
    specification groups under the name UnsupportedFormat. *)
Definition UnsupportedFormat (e : exn) : Prop :=
  e = Error msgUnsupported \/ e = Error msgNotBinary.

(** The specification's MalformedHeader is not among the exceptions of
    the code; a decode fails as the specification asks when it throws at
    all. *)
Definition fails {A : Type} (r : result A) : Prop :=
  match r with
  | Ok _ => False
  | Throw _ => True
  end.

Definition propertyOf (line : string) : Property :=
  let parts := split " " line in
  {| name := parts !! 2%nat; type := parts !! 1%nat |}.

(** The schema as the specification words it: the [property] lines of
    the block that follows the first [element vertex] line, up to the
    next [element] line. *)
Fixpoint afterFirstVertex (lines : list string) : list string :=
  match lines with
  | [] => []
  | l :: rest =>
      if startsWith "element vertex" l then rest else afterFirstVertex rest
  end.

Fixpoint blockProperties (lines : list string) : list Property :=
  match lines with
  | [] => []
  | l :: rest =>
      if startsWith "element" l then []
      else ((if startsWith "property" l then [propertyOf l] else [])
            ++ blockProperties rest)%list
  end.

Definition firstVertexBlockSchema (lines : list string) : list Property :=
  blockProperties (afterFirstVertex lines).

(** The schema as the code builds it, read line by line: a line that
    starts with [element vertex] opens the vertex context, a line that
    starts with [element] and has no [vertex] in it closes the context,
    and a [property] line counts while the context is open. *)
Definition opensVertex (l : string) : bool := startsWith "element vertex" l.
Definition closesVertex (l : string) : bool :=
  startsWith "element" l && negb (includes "vertex" l).

Fixpoint contextSchema (open : bool) (lines : list string) : list Property :=
  match lines with
  | [] => []
  | l :: rest =>
      let open' := if opensVertex l then true
                   else if closesVertex l then false else open in
      ((if open' && startsWith "property" l then [propertyOf l] else [])
       ++ contextSchema open' rest)%list
  end.

(** The vertex count a header declares: the number on its last line
    that starts with [element vertex], 0 when it has none. *)
Definition countFrom (init : option Z) (lines : list string) : option Z :=
  fold_left (fun acc l => if opensVertex l then parseInt (split " " l !! 2%nat) else acc)
            lines init.

Definition declaredCount (lines : list string) : option Z := countFrom (Some 0%Z) lines.

(** The bytes one property takes in a record, as the cursor moves. *)
Definition width (p : Property) : nat :=
  if isFloat (type p) then 4 else skipWidth (type p).

Definition stride (props : list Property) : nat :=
  fold_right (fun p acc => width p + acc) 0 props.

(** The count the loop runs up to. *)
Definition renderCountOf (declared : Z) : Z := Z.min declared MAX_VERTEX_COUNT.

(** The number of records that lie whole in the buffer from [offset] on. *)
Definition readableRecords (bufferLength offset recordStride : nat) : nat :=
  (bufferLength - offset) / recordStride.

(** The fourteen attributes a property name can set. *)
Inductive Attr : Type :=
  | PosX | PosY | PosZ
  | Scale0 | Scale1 | Scale2
  | Rot0 | Rot1 | Rot2 | Rot3
  | Opacity
  | FDC0 | FDC1 | FDC2.

Definition attrName (a : Attr) : string :=
  match a with
  | PosX => "x" | PosY => "y" | PosZ => "z"
  | Scale0 => "scale_0" | Scale1 => "scale_1" | Scale2 => "scale_2"
  | Rot0 => "rot_0" | Rot1 => "rot_1" | Rot2 => "rot_2" | Rot3 => "rot_3"
  | Opacity => "opacity"
  | FDC0 => "f_dc_0" | FDC1 => "f_dc_1" | FDC2 => "f_dc_2"
  end.

(** The attributes that take the float as it is. *)
Definition copies (a : Attr) : bool :=
  match a with
  | PosX | PosY | PosZ | Rot0 | Rot1 | Rot2 | Rot3 => true
  | _ => false
  end.

(** Whether a property of the schema sets the attribute: a float
    property of that name. *)
Definition sets (a : Attr) (p : Property) : bool :=
  isFloat (type p) &&
  match name p with
  | Some n => String.eqb n (attrName a)
  | None => false
  end.

Section Attributes.
Context {num : Type} {N : JSNumber num}.

Definition attrGet (a : Attr) (v : Vertex num) : num :=
  match a with
  | PosX => v_x v | PosY => v_y v | PosZ => v_z v
  | Scale0 => v_sx v | Scale1 => v_sy v | Scale2 => v_sz v
  | Rot0 => v_rw v | Rot1 => v_rx v | Rot2 => v_ry v | Rot3 => v_rz v
  | Opacity => v_opacity v
  | FDC0 => v_r v | FDC1 => v_g v | FDC2 => v_b v
  end.

(** The defaults of the specification: position (0,0,0), scale
    (0.1,0.1,0.1), rotation (1,0,0,0), opacity 1.0, colour
    (0.5,0.5,0.5). *)
Definition attrDefault (a : Attr) : num :=
  match a with
  | PosX | PosY | PosZ => lit 0
  | Scale0 | Scale1 | Scale2 => lit 0.1
  | Rot0 => lit 1
  | Rot1 | Rot2 | Rot3 => lit 0
  | Opacity => lit 1.0
  | FDC0 | FDC1 | FDC2 => lit 0.5
  end.

(** The transforms of the specification, by attribute. *)
Definition attrTransform (a : Attr) (value : num) : num :=
  match a with
  | PosX | PosY | PosZ | Rot0 | Rot1 | Rot2 | Rot3 => value
  | Scale0 | Scale1 | Scale2 => Math_exp value
  | Opacity => (lit 1 / (lit 1 + Math_exp (- value)))%num
  | FDC0 | FDC1 | FDC2 => (lit 0.5 + lit 0.28209479177387814 * value)%num
  end.

(** What reaches the typed array: colours are clamped to [0,1]; every
    store narrows to single precision. *)
Definition attrStored (a : Attr) (x : num) : num :=
  match a with
  | FDC0 | FDC1 | FDC2 => to_f32 (Math_max (lit 0) (Math_min (lit 1) x))
  | _ => to_f32 x
  end.

(** The slot of attribute [a] of vertex [i] in the decoded data. *)
Definition slot (a : Attr) (d : ParsedSplatData num) (i : nat) : option num :=
  match a with
  | PosX => positions d !! (i * 3 + 0)%nat
  | PosY => positions d !! (i * 3 + 1)%nat
  | PosZ => positions d !! (i * 3 + 2)%nat
  | Scale0 => scales d !! (i * 3 + 0)%nat
  | Scale1 => scales d !! (i * 3 + 1)%nat
  | Scale2 => scales d !! (i * 3 + 2)%nat
  | Rot0 => rotations d !! (i * 4 + 0)%nat
  | Rot1 => rotations d !! (i * 4 + 1)%nat
  | Rot2 => rotations d !! (i * 4 + 2)%nat
  | Rot3 => rotations d !! (i * 4 + 3)%nat
  | Opacity => opacities d !! i
  | FDC0 => colors d !! (i * 3 + 0)%nat
  | FDC1 => colors d !! (i * 3 + 1)%nat
  | FDC2 => colors d !! (i * 3 + 2)%nat
  end.

(** The five arrays have the lengths of [n] vertices. *)
Definition sized (n : nat) (d : ParsedSplatData num) : Prop :=
  length (positions d) = (n * 3)%nat /\
  length (scales d) = (n * 3)%nat /\
  length (rotations d) = (n * 4)%nat /\
  length (opacities d) = n /\
  length (colors d) = (n * 3)%nat.

(** The value a fresh [Float32Array] holds in every slot. *)
Definition blank : num := to_f32 (lit 0).

(** The data as allocated for [rc] vertices, before the loop. *)
Definition blankData (rc : Z) : ParsedSplatData num :=
  {| d_vertexCount := Some rc;
     positions := replicate (Z.to_nat (rc * 3)) blank;
     scales := replicate (Z.to_nat (rc * 3)) blank;
     rotations := replicate (Z.to_nat (rc * 4)) blank;
     opacities := replicate (Z.to_nat rc) blank;
     colors := replicate (Z.to_nat (rc * 3)) blank |}.

(** The record of vertex [i], decoded on its own from the offset
    where it starts. *)
Definition recordAt (buffer : list byte) (h : Header.Scan) (i : nat)
  : result (nat * Vertex num) :=
  decodeProps buffer (Header.properties h)
              (Header.headerOffset h + i * stride (Header.properties h))
              defaultVertex.

End Attributes.
End PlySpec.

(** ** Sample files *)

Module Samples.
Import JS Ply PlySpec.

Definition file (headerLines : list string) (body : list byte) : list byte :=
  (list_byte_of_string (unlines headerLines) ++ body)%list.

(** What the scan of a sample yields. *)
Definition scanOf (buffer : list byte) : Header.Scan :=
  match Header.scanHeader buffer with
  | Ok h => h
  | Throw _ => Header.initScan
  end.

Definition f32_0 : list byte := [x00; x00; x00; x00].
Definition f32_1 : list byte := [x00; x00; x80; x3f].
Definition f32_2 : list byte := [x00; x00; x00; x40].
Definition f32_3 : list byte := [x00; x00; x40; x40].

(** The one-vertex file of the end-to-end scenario: [x = 1], [y = 2],
    [z = 3], [opacity = 0], [f_dc_0 = 0]. *)
Definition oneVertexHeader : list string :=
  ["ply"; "format binary_little_endian 1.0"; "element vertex 1";
   "property float x"; "property float y"; "property float z";
   "property float opacity"; "property float f_dc_0"; "end_header"].
Definition oneVertex : list byte :=
  file oneVertexHeader (f32_1 ++ f32_2 ++ f32_3 ++ f32_0 ++ f32_0)%list.

(** Two vertices declared, one record in the body. *)
Definition twoDeclaredHeader : list string :=
  ["ply"; "format binary_little_endian 1.0"; "element vertex 2";
   "property float x"; "end_header"].
Definition oneOfTwo : list byte := file twoDeclaredHeader f32_1.

(** One vertex declared, half a record in the body. *)
Definition halfRecord : list byte :=
  file ["ply"; "format binary_little_endian 1.0"; "element vertex 1";
        "property float x"; "end_header"] [x00; x00].

(** A header that never reaches [end_header]. *)
Definition noEndHeader : list byte :=
  file ["ply"; "format binary_little_endian 1.0"; "element vertex 1";
        "property float x"] [].

Definition asciiFormat : list byte :=
  file ["ply"; "format ascii 1.0"; "element vertex 1"; "property float x";
        "end_header"] f32_1.

Definition noFormatLine : list byte :=
  file ["ply"; "element vertex 1"; "property float x"; "end_header"] f32_1.

(** A later element whose name has [vertex] in it. *)
Definition laterElementNamedVertex : list byte :=
  file ["ply"; "format binary_little_endian 1.0"; "element vertex 1";
        "property float x"; "element face_vertex 2"; "property float y";
        "end_header"] f32_1.

(** A second [element vertex] block after another element. *)
Definition secondVertexBlock : list byte :=
  file ["ply"; "format binary_little_endian 1.0"; "element vertex 1";
        "property float x"; "element face 2"; "property uchar n";
        "element vertex 3"; "property float y"; "end_header"] f32_1.

(** A header with lines of uneven length: carriage returns, leading
    and trailing blanks, a comment. *)
Definition CR : string := String "013"%char "".
Definition unevenLines : list string :=
  ["ply" ++ CR; "format binary_little_endian 1.0" ++ CR;
   "   comment made by hand   "; "element vertex 1" ++ CR;
   "property float x"].
Definition unevenEnd : string := "  end_header" ++ CR.
Definition uneven : list byte :=
  (list_byte_of_string (unlines (unevenLines ++ [unevenEnd])) ++ f32_3)%list.

Section Decoded.
Context {num : Type} {N : JSNumber num}.

(** What the decode of [oneVertex] returns. *)
Definition oneVertexData : ParsedSplatData num :=
  {| d_vertexCount := Some 1%Z;
     positions := [to_f32 (f32_of_bits 1065353216);
                   to_f32 (f32_of_bits 1073741824);
                   to_f32 (f32_of_bits 1077936128)];
     scales := [to_f32 (lit 0.1); to_f32 (lit 0.1); to_f32 (lit 0.1)];
     rotations := [to_f32 (lit 1); to_f32 (lit 0); to_f32 (lit 0); to_f32 (lit 0)];
     opacities := [to_f32 (lit 1 / (lit 1 + Math_exp (- f32_of_bits 0)))%num];
     colors := [to_f32 (clamp01 (lit 0.5 + lit SH_C0 * f32_of_bits 0)%num);
                to_f32 (clamp01 (lit 0.5));
                to_f32 (clamp01 (lit 0.5))] |}.

(** What the decode of [oneOfTwo] returns. *)
Definition oneOfTwoData : ParsedSplatData num :=
  {| d_vertexCount := Some 2%Z;
     positions := [to_f32 (f32_of_bits 1065353216); to_f32 (lit 0); to_f32 (lit 0);
                   blank; blank; blank];
     scales := [to_f32 (lit 0.1); to_f32 (lit 0.1); to_f32 (lit 0.1);
                blank; blank; blank];
     rotations := [to_f32 (lit 1); to_f32 (lit 0); to_f32 (lit 0); to_f32 (lit 0);
                   blank; blank; blank; blank];
     opacities := [to_f32 (lit 1.0); blank];
     colors := [to_f32 (clamp01 (lit 0.5)); to_f32 (clamp01 (lit 0.5));
                to_f32 (clamp01 (lit 0.5)); blank; blank; blank] |}.
End Decoded.

End Samples.

(** ** Further notions about the decoder *)

Module DecoderSpec.
Import JS Header Ply PlySpec Real.



(** A schema of float properties only, as the usual splat files have. *)
Definition allFloat (props : list Property) : Prop :=
  Forall (fun p => isFloat (type p) = true) props.

(** A header line that is one line of text and is not the [end_header]
    line. *)
Definition headerLine (l : string) : Prop :=
  hasLF l = false /\ isEndHeader l = false.

(** The data with no vertex in it. *)
Definition emptyData {num : Type} (count : option Z) : ParsedSplatData num :=
  mkData count [] [] [] [] [].




(** One vertex declared with a negative count. *)
Definition negativeCount : list byte :=
  Samples.file ["ply"; "format binary_little_endian 1.0"; "element vertex -3";
                "property float x"; "end_header"] Samples.f32_1.

(** The count left out of the [element vertex] line. *)
Definition missingCount : list byte :=
  Samples.file ["ply"; "format binary_little_endian 1.0"; "element vertex";
                "property float x"; "end_header"] Samples.f32_1.

(** A header that declares faces only. *)
Definition facesOnly : list byte :=
  Samples.file ["ply"; "format binary_little_endian 1.0"; "element face 2";
                "property uchar n"; "end_header"] Samples.f32_1.

End DecoderSpec.

(** ** The matrices and the shaders of [SplatRenderer] *)

(** The number operations that only the rendering code uses. *)
Class JSNumberMore (num : Type) : Type := {
  Math_tan : num -> num;
  (** [a === b] *)
  strict_eq : num -> num -> bool;
  (** [a > b] *)
  gt : num -> num -> bool
}.

Module Render.
Import Camera.

Section Matrices.
Context {num : Type} {N : JSNumber num} {M : JSNumberMore num}.

Record Vec4 : Type := mkVec4 { x4 : num; y4 : num; z4 : num; w4 : num }.

(** The eye of [getViewMatrix]: the target plus the orbit offset. *)
Definition eyeOf (s : State num) : Vec3 num :=
  let cy := Math_cos (y2 (camRot s)) in
  let sy := Math_sin (y2 (camRot s)) in
  let cp := Math_cos (x2 (camRot s)) in
  let sp := Math_sin (x2 (camRot s)) in
  let z := radius s in
  let cx := (cy * cp * z)%num in
  let cy_pos := (sp * z)%num in
  let cz := (sy * cp * z)%num in
  mkVec3 (x3 (target s) + cx)%num (y3 (target s) + cy_pos)%num (z3 (target s) + cz)%num.

(** The offset from the target to the eye: [cx], [cy_pos], [cz]. *)
Definition orbitOffset (s : State num) : Vec3 num :=
  let cy := Math_cos (y2 (camRot s)) in
  let sy := Math_sin (y2 (camRot s)) in
  let cp := Math_cos (x2 (camRot s)) in
  let sp := Math_sin (x2 (camRot s)) in
  let z := radius s in
  mkVec3 (cy * cp * z)%num (sp * z)%num (sy * cp * z)%num.

(** [if (len === 0) len = 1] *)
Definition guardLength (len : num) : num :=
  if strict_eq len (lit 0) then lit 1 else len.

(** The basis of [getViewMatrix]: [right], [newUp] and [fwd]. *)
Definition viewBasis (s : State num) : Vec3 num * Vec3 num * Vec3 num :=
  let eye := eyeOf s in
  let center := mkVec3 (x3 (target s)) (y3 (target s)) (z3 (target s)) in
  let up := mkVec3 (lit 0) (lit 1) (lit 0) in
  let z0 := (x3 eye - x3 center)%num in
  let z1 := (y3 eye - y3 center)%num in
  let z2 := (z3 eye - z3 center)%num in
  let len := guardLength (Math_sqrt (z0 * z0 + z1 * z1 + z2 * z2)%num) in
  let fwd := mkVec3 (z0 / len)%num (z1 / len)%num (z2 / len)%num in
  let x0 := (y3 up * z3 fwd - z3 up * y3 fwd)%num in
  let x1 := (z3 up * x3 fwd - x3 up * z3 fwd)%num in
  let x2 := (x3 up * y3 fwd - y3 up * x3 fwd)%num in
  let len := guardLength (Math_sqrt (x0 * x0 + x1 * x1 + x2 * x2)%num) in
  let right := mkVec3 (x0 / len)%num (x1 / len)%num (x2 / len)%num in
  let y0 := (y3 fwd * z3 right - z3 fwd * y3 right)%num in
  let y1 := (z3 fwd * x3 right - x3 fwd * z3 right)%num in
  let y2 := (x3 fwd * y3 right - y3 fwd * x3 right)%num in
  (right, mkVec3 y0 y1 y2, fwd).

(** [getViewMatrix]: the sixteen numbers of the [Float32Array], in the
    order of the source. *)
Definition getViewMatrix (s : State num) : list num :=
  let eye := eyeOf s in
  let right := fst (fst (viewBasis s)) in
  let newUp := snd (fst (viewBasis s)) in
  let fwd := snd (viewBasis s) in
  map to_f32
    [x3 right; x3 newUp; x3 fwd; lit 0;
     y3 right; y3 newUp; y3 fwd; lit 0;
     z3 right; z3 newUp; z3 fwd; lit 0;
     (- (x3 right * x3 eye + y3 right * y3 eye + z3 right * z3 eye))%num;
     (- (x3 newUp * x3 eye + y3 newUp * y3 eye + z3 newUp * z3 eye))%num;
     (- (x3 fwd * x3 eye + y3 fwd * y3 eye + z3 fwd * z3 eye))%num;
     lit 1].

(** [getProjectionMatrix], for a canvas of the given client size. *)
Definition getProjectionMatrix (clientWidth clientHeight : num) : list num :=
  let fieldOfView := (lit 45 * Math_PI / lit 180)%num in
  let aspect := (clientWidth / clientHeight)%num in
  let zNear := lit 0.1 in
  let zFar := lit 1000.0 in
  let f := (lit 1.0 / Math_tan (fieldOfView / lit 2))%num in
  let rangeInv := (lit 1 / (zNear - zFar))%num in
  map to_f32
    [(f / aspect)%num; lit 0; lit 0; lit 0;
     lit 0; f; lit 0; lit 0;
     lit 0; lit 0; ((zNear + zFar) * rangeInv)%num; (- lit 1)%num;
     lit 0; lit 0; (zNear * zFar * rangeInv * lit 2)%num; lit 0].

(** The product [m * v] of the shading language, for a matrix uploaded
    without transposition: the sixteen numbers are four columns. *)
Definition mulMat4 (m : list num) (v : Vec4) : Vec4 :=
  let e (i : nat) := nth i m (lit 0) in
  mkVec4
    (e 0%nat * x4 v + e 4%nat * y4 v + e 8%nat * z4 v + e 12%nat * w4 v)%num
    (e 1%nat * x4 v + e 5%nat * y4 v + e 9%nat * z4 v + e 13%nat * w4 v)%num
    (e 2%nat * x4 v + e 6%nat * y4 v + e 10%nat * z4 v + e 14%nat * w4 v)%num
    (e 3%nat * x4 v + e 7%nat * y4 v + e 11%nat * z4 v + e 15%nat * w4 v)%num.

Definition point (p : Vec3 num) : Vec4 := mkVec4 (x3 p) (y3 p) (z3 p) (lit 1.0).

(** What the vertex shader writes. *)
Record VertexOut : Type := mkVertexOut {
  gl_Position : Vec4;
  gl_PointSize : num;
  v_color : Vec3 num;
  v_opacity : num
}.

(** [main] of the vertex shader. *)
Definition vertexShader (u_projection u_view : list num) (u_viewport_height : num)
           (a_position a_scale : Vec3 num) (a_opacity : num) (a_color : Vec3 num)
  : VertexOut :=
  let pos := mulMat4 u_view (point a_position) in
  let position := mulMat4 u_projection pos in
  let avgScale := ((x3 a_scale + y3 a_scale + z3 a_scale) / lit 3.0)%num in
  {| gl_Position := position;
     gl_PointSize :=
       Math_max (lit 2.0) ((avgScale * u_viewport_height * lit 1.5) / w4 position)%num;
     v_color := a_color;
     v_opacity := a_opacity |}.

(** [main] of the fragment shader; [None] is [discard]. *)
Definition fragmentShader (gl_PointCoord : Vec2 num) (color : Vec3 num) (opacity : num)
  : option Vec4 :=
  let coord := mkVec2 (x2 gl_PointCoord - lit 0.5)%num (y2 gl_PointCoord - lit 0.5)%num in
  let distSq := (x2 coord * x2 coord + y2 coord * y2 coord)%num in
  if gt distSq (lit 0.25) then None
  else
    let alpha := (Math_exp (- distSq * lit 8.0) * opacity)%num in
    Some (mkVec4 (x3 color) (y3 color) (z3 color) alpha).

(** The vertex shader as the frame loop sets it up: the matrices of the
    current camera state and the height of the canvas. *)
Definition drawVertex (s : State num) (clientWidth clientHeight height : num)
           (a_position a_scale : Vec3 num) (a_opacity : num) (a_color : Vec3 num)
  : VertexOut :=
  vertexShader (getProjectionMatrix clientWidth clientHeight) (getViewMatrix s) height
               a_position a_scale a_opacity a_color.

End Matrices.

Arguments Vec4 : clear implicits.
Arguments VertexOut : clear implicits.
End Render.

(** ** Pointer and wheel events in sequence *)

Module Events.
Import Camera.

Section Run.
Context {num : Type} {N : JSNumber num}.

Inductive Event : Type :=
| MouseDown (button : Z) (clientX clientY : num)
| MouseUp
| MouseMove (clientX clientY : num)
| Wheel (deltaY : num).

(** The listener each event reaches. *)
Definition handle (s : State num) (e : Event) : State num :=
  match e with
  | MouseDown b x y => mousedown b x y s
  | MouseUp => mouseup s
  | MouseMove x y => mousemove x y s
  | Wheel d => wheel d s
  end.

Definition run (es : list Event) (s : State num) : State num := fold_left handle es s.

(** A drag: the moves through the given points, one event each. *)
Definition moves (points : list (num * num)) : list Event :=
  map (fun p => MouseMove (fst p) (snd p)) points.

End Run.

Arguments Event : clear implicits.
End Events.

(** The rendering operations over the reals. *)
Module RealMore.
Import Camera Real.

(** What every state the events can reach satisfies, over the reals. *)
Definition wellFormed (s : State R) : Prop :=
  (pitchMin <= pitch s <= pitchMax)%R /\
  (1 / 10 <= radius s)%R /\
  (isDragging s = false -> dragButton s = (-1)%Z).

#[export] Instance RNumberMore : JSNumberMore R := {|
  Math_tan := tan;
  strict_eq := fun a b => if Req_dec_T a b then true else false;
  gt := fun a b => if Rgt_dec a b then true else false
|}.

End RealMore.

(** * Literals over the reals *)

Module RealFacts.
Import Real.
Local Open Scope R_scope.

Local Ltac q2r_eq := unfold Q2R; cbn; lra.

Lemma Q2R_0 : Q2R 0 = 0.
Proof. q2r_eq. Qed.
Lemma Q2R_1 : Q2R 1 = 1.
Proof. q2r_eq. Qed.
Lemma Q2R_1_0 : Q2R 1.0 = 1.
Proof. q2r_eq. Qed.
Lemma Q2R_2 : Q2R 2 = 2.
Proof. q2r_eq. Qed.
Lemma Q2R_5 : Q2R 5 = 5.
Proof. q2r_eq. Qed.
Lemma Q2R_1000 : Q2R 1000 = 1000.
Proof. q2r_eq. Qed.
Lemma Q2R_half : Q2R 0.5 = 1 / 2.
Proof. q2r_eq. Qed.
Lemma Q2R_tenth : Q2R 0.1 = 1 / 10.
Proof. q2r_eq. Qed.
Lemma Q2R_hundredth : Q2R 0.01 = 1 / 100.
Proof. q2r_eq. Qed.
Lemma Q2R_0_005 : Q2R 0.005 = 5 / 1000.
Proof. q2r_eq. Qed.
Lemma Q2R_0_0015 : Q2R 0.0015 = 15 / 10000.
Proof. q2r_eq. Qed.

Local Ltac f32_value :=
  unfold R_of_f32_bits;
  match goal with
  | |- context [quotient ?b] =>
      let q := eval vm_compute in (quotient b) in
      replace (quotient b) with q by (vm_compute; reflexivity)
  end;
  cbn [fst snd]; lra.

Lemma f32_bits_0 : R_of_f32_bits 0 = 0.
Proof. f32_value. Qed.

Lemma f32_bits_1 : R_of_f32_bits 1065353216 = 1.
Proof. f32_value. Qed.

Lemma f32_bits_2 : R_of_f32_bits 1073741824 = 2.
Proof. f32_value. Qed.

Lemma f32_bits_3 : R_of_f32_bits 1077936128 = 3.
Proof. f32_value. Qed.

Lemma clamp_half : Rmax 0 (Rmin 1 (1 / 2)) = 1 / 2.
Proof. rewrite Rmin_right by lra. rewrite Rmax_right by lra. reflexivity. Qed.

Ltac q2r :=
  rewrite ?Q2R_0, ?Q2R_1, ?Q2R_1_0, ?Q2R_2, ?Q2R_5, ?Q2R_1000, ?Q2R_half,
    ?Q2R_tenth, ?Q2R_hundredth, ?Q2R_0_005, ?Q2R_0_0015.
End RealFacts.

(** * Properties of the camera *)

Module CameraFacts.
Import Camera CameraSpec RealFacts.

Section Generic.
Context {num : Type} {N : JSNumber num}.

Lemma panBasis_pan (dx dy : num) (s : State num) :
  panBasis (pan dx dy s) = panBasis s.
Proof. reflexivity. Qed.

Lemma rotateAll_snoc (ops : list (num * num)) (op : num * num) (s : State num) :
  rotateAll (ops ++ [op]) s = rotate (fst op) (snd op) (rotateAll ops s).
Proof. unfold rotateAll. now rewrite fold_left_app. Qed.

(** C10. Each interaction touches its own part of the camera: a move
    while dragging with the left button (0) leaves [target] and
    [radius] as they were; a move while dragging with the right button
    (2) leaves pitch, yaw and [radius] as they were; a wheel event
    leaves pitch, yaw and [target] as they were; a move while no button
    is held leaves the whole state as it was. *)
Theorem interaction_frame (s : State num) :
  (forall cx cy, isDragging s = true -> dragButton s = 0%Z ->
     target (mousemove cx cy s) = target s /\
     radius (mousemove cx cy s) = radius s) /\
  (forall cx cy, isDragging s = true -> dragButton s = 2%Z ->
     camRot (mousemove cx cy s) = camRot s /\
     radius (mousemove cx cy s) = radius s) /\
  (forall deltaY,
     camRot (wheel deltaY s) = camRot s /\
     target (wheel deltaY s) = target s) /\
  (forall cx cy, isDragging s = false -> mousemove cx cy s = s).
Proof.
  repeat split; intros; unfold mousemove; cbn;
    repeat match goal with
           | H : isDragging _ = _ |- _ => rewrite H
           | H : dragButton _ = _ |- _ => rewrite H
           end; reflexivity.
Qed.
End Generic.

Import Real.
Local Open Scope R_scope.

Lemma pitch_bounds_ordered : pitchMin (num := R) <= pitchMax (num := R).
Proof.
  unfold pitchMin, pitchMax; cbn. q2r.
  pose proof PI2_1. lra.
Qed.

Lemma pitch_rotate_eq (dx dy : R) (s : State R) :
  pitch (rotate dx dy s) = Rmax pitchMin (Rmin pitchMax (pitch s - dy * (5 / 1000))).
Proof. unfold pitch, rotate. cbn [camRot x2]. cbn [fsub fmul lit Math_max Math_min RNumber].
  now q2r. Qed.

Lemma pitch_rotate (dx dy : R) (s : State R) :
  pitchMin <= pitch (rotate dx dy s) <= pitchMax.
Proof.
  rewrite pitch_rotate_eq.
  pose proof pitch_bounds_ordered as Hb.
  split.
  - apply Rmax_l.
  - apply Rmax_lub; [exact Hb | apply Rmin_l].
Qed.

Lemma pitch_stays_low (dx dy : R) (s : State R) :
  0 <= dy -> pitch s = pitchMin -> pitch (rotate dx dy s) = pitchMin.
Proof.
  intros Hdy Hp. rewrite pitch_rotate_eq, Hp.
  pose proof pitch_bounds_ordered as Hb.
  rewrite Rmin_right by nra.
  rewrite Rmax_left by nra. reflexivity.
Qed.

Lemma pitch_first_drag : pitch (rotate (lit 0) (lit 1000) initial) = pitchMin.
Proof.
  rewrite pitch_rotate_eq.
  pose proof pitch_bounds_ordered as Hb.
  assert (Hlow : 0 - 1000 * (5 / 1000) <= pitchMin (num := R)).
  { unfold pitchMin; cbn. q2r. pose proof PI_4. lra. }
  change (pitch initial) with (Q2R 0). change (lit 1000) with (Q2R 1000).
  q2r.
  rewrite Rmin_right by lra.
  rewrite Rmax_left by lra. reflexivity.
Qed.

(** C8. After every Rotate of every sequence of Rotates, from any
    state, the pitch lies between [-PI/2 + 0.01] and [PI/2 - 0.01], the
    bounds included. From the default state, Rotate(0, 1000) puts the
    pitch on its bound (the lower one, as the handler subtracts the
    delta), and Rotates that follow with a vertical delta of the same
    sign leave it there. *)
Theorem rotate_pitch_clamped :
  (forall (s : State R) (ops : list (R * R)) (dx dy : R),
      pitchMin <= pitch (rotateAll (ops ++ [(dx, dy)]) s) <= pitchMax) /\
  pitch (rotate (lit 0) (lit 1000) initial) = pitchMin /\
  (forall ops : list (R * R),
      Forall (fun op => 0 <= snd op) ops ->
      pitch (rotateAll ops (rotate (lit 0) (lit 1000) initial)) = pitchMin).
Proof.
  split; [|split].
  - intros s ops dx dy. rewrite rotateAll_snoc. apply pitch_rotate.
  - apply pitch_first_drag.
  - intros ops. induction ops as [|op ops IH] using rev_ind; intros Hall.
    + apply pitch_first_drag.
    + rewrite rotateAll_snoc. apply Forall_app in Hall as [Hops Hop].
      apply pitch_stays_low.
      * now inversion Hop.
      * now apply IH.
Qed.

Lemma rotate_pitch_clamped_witness :
  Forall (fun op : R * R => 0 <= snd op) [(3, 5); (-2, 0)] /\
  pitch (rotateAll [(3, 5); (-2, 0)] (rotate (lit 0) (lit 1000) initial)) = pitchMin.
Proof.
  assert (H : Forall (fun op : R * R => 0 <= snd op) [(3, 5); (-2, 0)]).
  { repeat constructor; cbn; lra. }
  split; [exact H|].
  exact (proj2 (proj2 rotate_pitch_clamped) _ H).
Defined.

Lemma pan_back (s : State R) (dx dy : R) :
  target (pan (- dx) (- dy) (pan dx dy s)) = target s.
Proof.
  unfold pan at 1. rewrite panBasis_pan.
  unfold pan. cbn [target radius].
  destruct (panBasis s) as [right u]. destruct (target s) as [tx ty tz].
  cbn. f_equal; ring.
Qed.

(** C9. A Pan leaves the radius, the pitch and the yaw as they were, so
    the Pan that follows it works with the same basis and the same speed,
    in any arithmetic. Over the reals, a Pan by [(dx, dy)] followed at
    once by a Pan by [(-dx, -dy)] brings [target] back to the value it
    had, and so does a right-button drag from a point to another and
    back. *)
Theorem pan_round_trip :
  (forall (num : Type) (N : JSNumber num) (s : State num) (dx dy : num),
      panBasis (pan dx dy s) = panBasis s /\
      radius (pan dx dy s) = radius s /\
      camRot (pan dx dy s) = camRot s) /\
  (forall (s : State R) (dx dy : R),
      target (pan (- dx) (- dy) (pan dx dy s)) = target s) /\
  (forall (s : State R) (x0 y0 dx dy : R),
      target (mousemove x0 y0 (mousemove (x0 + dx) (y0 + dy) (mousedown 2 x0 y0 s)))
      = target s).
Proof.
  split; [|split].
  - intros num N s dx dy. repeat split.
  - apply pan_back.
  - intros s x0 y0 dx dy. destruct s as [[tx ty tz] r [p y] d b l].
    unfold mousemove, mousedown. cbn. f_equal; ring.
Qed.

Lemma interaction_frame_witness :
  let s := mousedown 0 1 1 (initial (num := R)) in
  let t := mousedown 2 1 1 (initial (num := R)) in
  (target (mousemove 4 5 s) = target s /\ radius (mousemove 4 5 s) = radius s) /\
  (camRot (mousemove 4 5 t) = camRot t /\ radius (mousemove 4 5 t) = radius t) /\
  mousemove 4 5 initial = initial (num := R).
Proof.
  intros s t.
  split; [|split].
  - exact (proj1 (interaction_frame s) 4 5 eq_refl eq_refl).
  - exact (proj1 (proj2 (interaction_frame t)) 4 5 eq_refl eq_refl).
  - exact (proj2 (proj2 (proj2 (interaction_frame initial))) 4 5 eq_refl).
Defined.

End CameraFacts.

(** * Strings, lines and bytes *)

Module TextFacts.
Import JS PlySpec.

Lemma length_append (a b : string) :
  String.length (a ++ b) = String.length a + String.length b.
Proof. induction a as [|c a IH]; cbn; [reflexivity | now rewrite IH]. Qed.

Lemma append_assoc (a b c : string) : (a ++ b) ++ c = a ++ (b ++ c).
Proof. induction a as [|x a IH]; cbn; [reflexivity | now rewrite IH]. Qed.

Lemma append_nil_r (a : string) : a ++ "" = a.
Proof. induction a as [|x a IH]; cbn; [reflexivity | now rewrite IH]. Qed.

Lemma bytes_append (a b : string) :
  list_byte_of_string (a ++ b) =
  (list_byte_of_string a ++ list_byte_of_string b)%list.
Proof.
  unfold list_byte_of_string.
  induction a as [|c a IH]; cbn; [reflexivity | now rewrite IH].
Qed.

Lemma length_bytes (a : string) :
  length (list_byte_of_string a) = String.length a.
Proof.
  unfold list_byte_of_string.
  induction a as [|c a IH]; cbn; [reflexivity | now rewrite IH].
Qed.

Lemma decodeAscii_app (a b : list byte) :
  decodeAscii (a ++ b) = decodeAscii a ++ decodeAscii b.
Proof.
  unfold decodeAscii, string_of_list_byte.
  induction a as [|c a IH]; cbn; [reflexivity | now rewrite IH].
Qed.

Lemma decodeAscii_bytes (a : string) : decodeAscii (list_byte_of_string a) = a.
Proof. apply string_of_list_byte_of_string. Qed.

(** The lines of a text that starts with a whole line. *)
Lemma split_line (l rest : string) :
  hasLF l = false -> split LF (l ++ String LF rest) = l :: split LF rest.
Proof.
  induction l as [|c l IH]; cbn; intros H.
  - reflexivity.
  - apply orb_false_iff in H as [Hc Hl]. rewrite Hc, (IH Hl). reflexivity.
Qed.

Lemma split_last (l : string) : hasLF l = false -> split LF l = [l].
Proof.
  induction l as [|c l IH]; cbn; intros H.
  - reflexivity.
  - apply orb_false_iff in H as [Hc Hl]. rewrite Hc, (IH Hl). reflexivity.
Qed.

Lemma split_unlines (ls : list string) (rest : string) :
  Forall (fun l => hasLF l = false) ls ->
  split LF (unlines ls ++ rest) = (ls ++ split LF rest)%list.
Proof.
  induction 1 as [|l ls Hl _ IH]; cbn; [reflexivity|].
  rewrite append_assoc. cbn. rewrite (split_line _ _ Hl), IH. reflexivity.
Qed.

Lemma unlines_snoc (ls : list string) (l : string) :
  unlines (ls ++ [l]) = unlines ls ++ l ++ String LF "".
Proof.
  induction ls as [|x ls IH]; cbn; [reflexivity|].
  rewrite IH, append_assoc. reflexivity.
Qed.

Lemma join_snoc (ls : list string) (l : string) :
  join (String LF "") (ls ++ [l]) = unlines ls ++ l.
Proof.
  induction ls as [|x ls IH]; [reflexivity|].
  cbn [app unlines]. rewrite append_assoc. cbn [append].
  rewrite <- IH. cbn [join].
  destruct (ls ++ [l])%list eqn:E; [now destruct ls|reflexivity].
Qed.

End TextFacts.

(** * Properties of the header scan *)

Module HeaderFacts.
Import JS Header Ply PlySpec TextFacts.

Lemma checkFormat_cases (line : string) (s : Scan) :
  (isFormatLine line = true /\ isLittleEndianBinary line = false /\
   checkFormat line s = Throw (Error msgUnsupported)) \/
  (isFormatLine line = true /\ isLittleEndianBinary line = true /\
   checkFormat line s = Ok (set_isBinary true s)) \/
  (isFormatLine line = false /\ checkFormat line s = Ok s).
Proof.
  unfold checkFormat, isFormatLine, isLittleEndianBinary.
  destruct (startsWith "format" line); [|now right; right].
  destruct (includes "binary_little_endian 1.0" line); [right; left | left]; easy.
Qed.

(** What one pass of the element and property tests does to the
    context flag and to the schema. *)
Lemma step_schema (line : string) (s : Scan) :
  let s' := checkProperty line (checkElement line s) in
  let open' := if opensVertex line then true
               else if closesVertex line then false else inVertexElement s in
  inVertexElement s' = open' /\
  properties s' =
    (properties s ++ (if open' && startsWith "property" line then [propertyOf line] else []))%list /\
  isBinary s' = isBinary s.
Proof.
  unfold checkProperty, checkElement, opensVertex, closesVertex, propertyOf.
  destruct (startsWith "element vertex" line); cbn.
  - destruct (startsWith "property" line); cbn;
      repeat split; rewrite ?app_nil_r; reflexivity.
  - destruct (startsWith "element" line && negb (includes "vertex" line)); cbn.
    + repeat split; rewrite ?app_nil_r; reflexivity.
    + destruct (inVertexElement s) eqn:E; cbn; rewrite ?E; cbn.
      * destruct (startsWith "property" line); cbn;
          repeat split; rewrite ?app_nil_r; auto.
      * repeat split; rewrite ?app_nil_r; auto.
Qed.

Lemma step_count (line : string) (s : Scan) :
  vertexCount (checkProperty line (checkElement line s))
  = if opensVertex line then parseInt (split " " line !! 2%nat) else vertexCount s.
Proof.
  unfold checkProperty, checkElement, opensVertex.
  destruct (startsWith "element vertex" line); cbn.
  - now destruct (startsWith "property" line).
  - destruct (startsWith "element" line && negb (includes "vertex" line)); cbn.
    + reflexivity.
    + now destruct (inVertexElement s && startsWith "property" line).
Qed.

Lemma scan_count (hl rest : list string) (i : nat) (s h : Scan) :
  scanLines hl rest i s = Ok h ->
  vertexCount h = countFrom (vertexCount s) (linesBeforeEnd rest).
Proof.
  revert i s. induction rest as [|raw rest IH]; intros i s H; cbn in H.
  - now inversion H.
  - cbn [linesBeforeEnd]. unfold isEndHeader.
    destruct (String.eqb (trim raw) "end_header"); [now inversion H|].
    set (s0 := set_headerOffset _ s) in H.
    cbn [countFrom fold_left]. fold (countFrom).
    destruct (checkFormat_cases (trim raw) s0) as [(_ & _ & E)|[(_ & _ & E)|(_ & E)]];
      rewrite E in H; cbn [bind] in H; [discriminate| |];
      apply IH in H; rewrite H, step_count; reflexivity.
Qed.

Lemma scanHeader_count (buffer : list byte) (h : Scan) :
  scanHeader buffer = Ok h -> vertexCount h = declaredCount (scannedLines buffer).
Proof. apply scan_count. Qed.

Lemma scan_bad_format (hl rest : list string) (i : nat) (s : Scan) :
  (exists l, In l (linesBeforeEnd rest) /\
             isFormatLine l = true /\ isLittleEndianBinary l = false) ->
  scanLines hl rest i s = Throw (Error msgUnsupported).
Proof.
  revert i s. induction rest as [|raw rest IH]; intros i s (l & Hin & Hf & Hb).
  - destruct Hin.
  - cbn in Hin |- *. unfold isEndHeader in Hin.
    destruct (String.eqb (trim raw) "end_header"); [destruct Hin|].
    set (s0 := set_headerOffset _ s).
    destruct (checkFormat_cases (trim raw) s0) as [(_ & _ & E)|[(F & B & E)|(F & E)]];
      rewrite E; cbn; [reflexivity| |].
    + destruct Hin as [<-|Hin]; [congruence|]. apply IH. now exists l.
    + destruct Hin as [<-|Hin]; [congruence|]. apply IH. now exists l.
Qed.

Lemma scan_no_format (hl rest : list string) (i : nat) (s : Scan) :
  (forall l, In l (linesBeforeEnd rest) -> isFormatLine l = false) ->
  exists h, scanLines hl rest i s = Ok h /\ isBinary h = isBinary s.
Proof.
  revert i s. induction rest as [|raw rest IH]; intros i s Hno.
  - now exists s.
  - cbn in Hno |- *. unfold isEndHeader in Hno.
    destruct (String.eqb (trim raw) "end_header"); [eexists; split; reflexivity|].
    set (s0 := set_headerOffset _ s).
    destruct (checkFormat_cases (trim raw) s0) as [(F & _)|[(F & _)|(F & E)]].
    1,2: rewrite (Hno (trim raw)) in F by now left. 1,2: discriminate.
    rewrite E; cbn.
    destruct (IH (S i) (checkProperty (trim raw) (checkElement (trim raw) s0)))
      as (h & Hh & Hb); [intros l Hl; apply Hno; now right|].
    exists h. split; [exact Hh|]. rewrite Hb.
    now destruct (step_schema (trim raw) s0) as (_ & _ & ->).
Qed.

Lemma scan_schema (hl rest : list string) (i : nat) (s : Scan) :
  match scanLines hl rest i s with
  | Ok h => properties h =
            (properties s ++ contextSchema (inVertexElement s) (linesBeforeEnd rest))%list
  | Throw e => e = Error msgUnsupported
  end.
Proof.
  revert i s. induction rest as [|raw rest IH]; intros i s.
  - cbn. now rewrite app_nil_r.
  - cbn. unfold isEndHeader.
    destruct (String.eqb (trim raw) "end_header"); [cbn; now rewrite app_nil_r|].
    set (s0 := set_headerOffset _ s).
    assert (Hstep : forall s1, properties s1 = properties s ->
              inVertexElement s1 = inVertexElement s ->
              match scanLines hl rest (S i)
                      (checkProperty (trim raw) (checkElement (trim raw) s1)) with
              | Ok h => properties h = (properties s ++
                          contextSchema (inVertexElement s) (trim raw :: linesBeforeEnd rest))%list
              | Throw e => e = Error msgUnsupported
              end).
    { intros s1 Hp Hv.
      specialize (IH (S i) (checkProperty (trim raw) (checkElement (trim raw) s1))).
      destruct (scanLines hl rest (S i) _) as [h|e]; [|exact IH].
      rewrite IH. destruct (step_schema (trim raw) s1) as (-> & -> & _).
      cbn [contextSchema]. rewrite Hp, Hv. now rewrite <- app_assoc. }
    destruct (checkFormat_cases (trim raw) s0) as [(_ & _ & E)|[(_ & _ & E)|(_ & E)]];
      rewrite E; cbn [bind]; [reflexivity| |]; now apply Hstep.
Qed.

(** C7, as amended. The schema holds exactly the [property] lines the
    scan meets while the vertex context is open, in file order: every
    line that starts with [element vertex] opens the context (the first
    and any later one), only a line that starts with [element] and has no
    [vertex] anywhere in it closes the context, and a [property] line met
    while the context is closed adds nothing. The scan yields this schema
    or throws on a format line. *)
Theorem schema_follows_vertex_context (buffer : list byte) :
  match scanHeader buffer with
  | Ok h => properties h = contextSchema false (scannedLines buffer)
  | Throw e => e = Error msgUnsupported
  end.
Proof.
  unfold scanHeader, scannedLines.
  exact (scan_schema (headerLinesOf buffer) (headerLinesOf buffer) 0 initScan).
Qed.

Lemma scan_reaches_end (hl ls more : list string) (line : string) (i : nat) (s : Scan) :
  Forall passes ls -> isEndHeader line = true ->
  exists h, scanLines hl (ls ++ line :: more) i s = Ok h /\
            headerOffset h = exactHeaderLength hl (i + length ls) /\
            endHeaderIndex h = Z.of_nat (i + length ls).
Proof.
  intros Hls Hend. revert i s.
  induction Hls as [|l ls (_ & Hne & Hfmt) _ IH]; intros i s.
  - cbn. unfold isEndHeader in Hend. rewrite Hend.
    eexists. split; [reflexivity|]. cbn. now rewrite Nat.add_0_r.
  - cbn. unfold isEndHeader in Hne. rewrite Hne.
    set (s0 := set_headerOffset _ s).
    destruct (checkFormat_cases (trim l) s0) as [(F & B & _)|[(_ & _ & E)|(_ & E)]].
    + rewrite (Hfmt F) in B. discriminate.
    + rewrite E. cbn [bind].
      destruct (IH (S i) (checkProperty (trim l) (checkElement (trim l) (set_isBinary true s0))))
        as (h & Hh & Ho & Hi).
      exists h. now rewrite Hh, Ho, Hi, Nat.add_succ_r.
    + rewrite E. cbn [bind].
      destruct (IH (S i) (checkProperty (trim l) (checkElement (trim l) s0)))
        as (h & Hh & Ho & Hi).
      exists h. now rewrite Hh, Ho, Hi, Nat.add_succ_r.
Qed.

(** The lines of the scanned prefix of a file that starts with the
    header [ls], [line]. *)
Lemma headerLines_of_file (ls : list string) (line : string) (body : list byte) :
  Forall passes ls -> hasLF line = false ->
  String.length (unlines ls ++ line) <= 5000 ->
  exists more,
    headerLinesOf (list_byte_of_string (unlines (ls ++ [line])) ++ body)
    = (ls ++ line :: more)%list.
Proof.
  intros Hls Hline Hlen. unfold headerLinesOf.
  rewrite unlines_snoc, <- append_assoc, bytes_append, <- app_assoc.
  rewrite take_app_ge by (rewrite length_bytes; exact Hlen).
  rewrite decodeAscii_app, decodeAscii_bytes, append_assoc.
  rewrite split_unlines
    by (eapply Forall_impl; [exact Hls | now intros l (H & _)]).
  destruct (take _ _) as [|b tl] eqn:Etake.
  - exists []. cbn. now rewrite append_nil_r, (split_last _ Hline).
  - assert (Hb : b = byte_of_ascii LF).
    { destruct (_ - _) as [|m]; [discriminate|]. cbn in Etake. now inversion Etake. }
    subst b. exists (split LF (decodeAscii tl)).
    change (decodeAscii (byte_of_ascii LF :: tl)) with (String LF (decodeAscii tl)).
    now rewrite (split_line _ _ Hline).
Qed.

Lemma header_offset_at_end (ls : list string) (line : string) (body : list byte) :
  Forall passes ls -> hasLF line = false -> isEndHeader line = true ->
  String.length (unlines ls ++ line) <= 5000 ->
  let header := unlines (ls ++ [line]) in
  let buffer := (list_byte_of_string header ++ body)%list in
  exists h, scanHeader buffer = Ok h /\
            headerOffset h = String.length header /\
            drop (headerOffset h) buffer = body.
Proof.
  intros Hls Hline Hend Hlen header buffer.
  destruct (headerLines_of_file ls line body Hls Hline Hlen) as (more & Hhl).
  fold header in Hhl. fold buffer in Hhl.
  unfold scanHeader. rewrite Hhl.
  destruct (scan_reaches_end (ls ++ line :: more) ls more line 0 initScan Hls Hend)
    as (h & Hh & Ho & _).
  exists h. split; [exact Hh|].
  assert (Hoff : headerOffset h = String.length header).
  { rewrite Ho. unfold exactHeaderLength. cbn [Nat.add].
    replace (length ls + 1) with (length (ls ++ [line])) by (rewrite length_app; reflexivity).
    replace (ls ++ line :: more)%list with ((ls ++ [line]) ++ more)%list
      by now rewrite <- app_assoc.
    rewrite take_app_length, join_snoc. unfold header.
    now rewrite unlines_snoc, <- append_assoc. }
  split; [exact Hoff|].
  rewrite Hoff. unfold buffer. rewrite <- length_bytes. apply drop_app_length.
Qed.

(** On the header with uneven lines the offset is the exact length, 114
    bytes; the running sum of the trimmed lengths would have been 102. *)
Lemma uneven_offset_is_not_running_sum :
  exists h, scanHeader Samples.uneven = Ok h /\
            headerOffset h = 114 /\
            runningSum (Samples.unevenLines ++ [Samples.unevenEnd]) = 102.
Proof. eexists. split; [vm_compute; reflexivity|]. split; reflexivity. Qed.

(** The claim C7 as it is worded fails on two kinds of header: one where
    a later element line has [vertex] in its name, and one with a second
    [element vertex] block. In both the schema has a property from
    outside the first vertex block. *)
Lemma schema_beyond_first_vertex_block :
  (exists h, scanHeader Samples.laterElementNamedVertex = Ok h /\
             properties h <> firstVertexBlockSchema
                               (scannedLines Samples.laterElementNamedVertex)) /\
  (exists h, scanHeader Samples.secondVertexBlock = Ok h /\
             properties h <> firstVertexBlockSchema
                               (scannedLines Samples.secondVertexBlock)).
Proof.
  split; eexists; (split; [vm_compute; reflexivity|]); vm_compute; discriminate.
Qed.

End HeaderFacts.

(** * Properties of the decoder *)

Module PlyFacts.
Import JS Header Ply PlySpec HeaderFacts.

Section Generic.
Context {num : Type} {N : JSNumber num}.

Lemma parse_bad_format (buffer : list byte) :
  (exists l, In l (scannedLines buffer) /\
             isFormatLine l = true /\ isLittleEndianBinary l = false) ->
  parsePlyFile (num := num) buffer = Throw (Error msgUnsupported).
Proof.
  intros H. unfold parsePlyFile, scanHeader.
  now rewrite (scan_bad_format _ _ 0 initScan H).
Qed.

Lemma parse_no_format (buffer : list byte) :
  (forall l, In l (scannedLines buffer) -> isFormatLine l = false) ->
  parsePlyFile (num := num) buffer = Throw (Error msgNotBinary).
Proof.
  intros H. unfold parsePlyFile, scanHeader.
  destruct (scan_no_format (headerLinesOf buffer) (headerLinesOf buffer) 0 initScan H)
    as (h & -> & Hb).
  cbn in *. now rewrite Hb.
Qed.

(** *** Reading floats *)

Lemma getFloat32_ok (buffer : list byte) (off : nat) :
  off + 4 <= length buffer ->
  exists value, getFloat32 (num := num) buffer off = Ok value.
Proof.
  intros H. unfold getFloat32.
  assert (L : length (take 4 (drop off buffer)) = 4)
    by (rewrite length_take, length_drop; lia).
  destruct (take 4 (drop off buffer)) as [|b0 [|b1 [|b2 [|b3 [|b4 t]]]]];
    try discriminate L.
  eexists; reflexivity.
Qed.

Lemma getFloat32_short (buffer : list byte) (off : nat) :
  length buffer < off + 4 ->
  getFloat32 (num := num) buffer off = Throw RangeError.
Proof.
  intros H. unfold getFloat32.
  assert (L : length (take 4 (drop off buffer)) < 4)
    by (rewrite length_take, length_drop; lia).
  destruct (take 4 (drop off buffer)) as [|b0 [|b1 [|b2 [|b3 [|b4 t]]]]];
    try reflexivity; cbn in L; lia.
Qed.

(** *** One record *)

Lemma decodeProps_offset (buffer : list byte) (props : list Property)
      (off off' : nat) (v v' : Vertex num) :
  decodeProps buffer props off v = Ok (off', v') -> off' = off + stride props.
Proof.
  revert off v. induction props as [|p props IH]; intros off v H; cbn in H.
  - inversion H. cbn. lia.
  - cbn [stride fold_right]. fold (stride props). unfold width.
    destruct (isFloat (type p)).
    + destruct (getFloat32 buffer off) as [value|e]; [|discriminate].
      cbn in H. apply IH in H. lia.
    + apply IH in H. lia.
Qed.

Lemma decodeProps_ok (buffer : list byte) (props : list Property)
      (off : nat) (v : Vertex num) :
  off + stride props <= length buffer ->
  exists v', decodeProps buffer props off v = Ok (off + stride props, v').
Proof.
  revert off v. induction props as [|p props IH]; intros off v H.
  - exists v. cbn. now rewrite Nat.add_0_r.
  - cbn [stride fold_right] in *. fold (stride props) in *. unfold width in *.
    cbn [decodeProps]. destruct (isFloat (type p)).
    + destruct (getFloat32_ok buffer off) as (value & ->); [lia|]. cbn [bind].
      destruct (IH (off + 4) (assign (name p) value v)) as (v' & ->); [lia|].
      exists v'. do 2 f_equal. lia.
    + destruct (IH (off + skipWidth (type p)) v) as (v' & ->); [lia|].
      exists v'. do 2 f_equal. lia.
Qed.

(** *** The switch on the property name *)

Lemma assign_same (a : Attr) (value : num) (v : Vertex num) :
  attrGet a (assign (Some (attrName a)) value v) = attrTransform a value.
Proof. destruct a; reflexivity. Qed.

Lemma assign_other (a : Attr) (nm : option string) (value : num) (v : Vertex num) :
  match nm with Some n => String.eqb n (attrName a) | None => false end = false ->
  attrGet a (assign nm value v) = attrGet a v.
Proof.
  destruct nm as [n|]; [|reflexivity]. intros H. unfold assign.
  repeat match goal with
         | |- context [String.eqb n ?s] =>
             destruct (String.eqb_spec n s);
             [subst n; destruct a; (reflexivity || discriminate H)|]
         end.
  reflexivity.
Qed.

Lemma decodeProps_keeps (a : Attr) (buffer : list byte) (props : list Property)
      (off off' : nat) (v v' : Vertex num) :
  decodeProps buffer props off v = Ok (off', v') ->
  Forall (fun p => sets a p = false) props ->
  attrGet a v' = attrGet a v.
Proof.
  revert off v. induction props as [|p props IH]; intros off v H Hno; cbn in H.
  - now inversion H.
  - inversion Hno as [|? ? Hp Hrest]; subst. unfold sets in Hp.
    destruct (isFloat (type p)).
    + destruct (getFloat32 buffer off) as [value|e]; [|discriminate].
      cbn in H. rewrite (IH _ _ H Hrest). now apply assign_other.
    + now apply (IH _ _ H Hrest).
Qed.

Lemma decodeProps_sets (a : Attr) (buffer : list byte) (p1 p2 : list Property)
      (p : Property) (off off' : nat) (v v' : Vertex num) :
  decodeProps buffer (p1 ++ p :: p2) off v = Ok (off', v') ->
  sets a p = true ->
  Forall (fun q => sets a q = false) p2 ->
  exists value, getFloat32 buffer (off + stride p1) = Ok value /\
                attrGet a v' = attrTransform a value.
Proof.
  revert off v. induction p1 as [|q p1 IH]; intros off v H Hp Hno.
  - cbn in H. unfold sets in Hp. apply andb_true_iff in Hp as [Hf Hn].
    rewrite Hf in H.
    destruct (name p) as [n|] eqn:En; [|discriminate].
    apply String.eqb_eq in Hn. subst n.
    cbn [stride fold_right]. rewrite Nat.add_0_r.
    destruct (getFloat32 buffer off) as [value|e]; [|discriminate].
    cbn in H. exists value. split; [reflexivity|].
    rewrite (decodeProps_keeps a _ _ _ _ _ _ H Hno). apply assign_same.
  - cbn [app decodeProps] in H. cbn [stride fold_right]. fold (stride p1).
    unfold width. destruct (isFloat (type q)).
    + destruct (getFloat32 buffer off) as [value0|e]; [|discriminate].
      cbn in H. destruct (IH _ _ H Hp Hno) as (value & Hg & Ha).
      exists value. split; [|exact Ha]. rewrite <- Hg. f_equal. lia.
    + destruct (IH _ _ H Hp Hno) as (value & Hg & Ha).
      exists value. split; [|exact Ha]. rewrite <- Hg. f_equal. lia.
Qed.

Lemma copied_exactly (a : Attr) (buffer : list byte) (off : nat) (value : num) :
  (forall bits, to_f32 (f32_of_bits bits) = f32_of_bits bits) ->
  getFloat32 buffer off = Ok value -> copies a = true ->
  attrStored a (attrTransform a value) = value.
Proof.
  intros Hlaw Hget Hc. unfold getFloat32 in Hget.
  destruct (take 4 (drop off buffer)) as [|b0 [|b1 [|b2 [|b3 [|b4 t]]]]];
    try discriminate Hget.
  inversion Hget; subst value.
  destruct a; try discriminate Hc; apply Hlaw.
Qed.

(** *** The stores of one vertex *)

Lemma sized_store (n i : nat) (v : Vertex num) (d : ParsedSplatData num) :
  sized n d -> sized n (store i v d).
Proof.
  unfold sized, store; cbn. rewrite !length_insert. tauto.
Qed.

Lemma slot_store_same (a : Attr) (n i : nat) (v : Vertex num) (d : ParsedSplatData num) :
  sized n d -> i < n ->
  slot a (store i v d) i = Some (attrStored a (attrGet a v)).
Proof.
  intros (Hp & Hs & Hr & Ho & Hc) Hi.
  destruct a; cbn;
    repeat (rewrite list_lookup_insert_ne by lia);
    (rewrite list_lookup_insert_eq by (rewrite ?length_insert; lia));
    reflexivity.
Qed.

Lemma slot_store_other (a : Attr) (i j : nat) (v : Vertex num) (d : ParsedSplatData num) :
  i <> j -> slot a (store i v d) j = slot a d j.
Proof.
  intros Hij. destruct a; cbn;
    repeat (rewrite list_lookup_insert_ne by lia); reflexivity.
Qed.

(** *** The vertex loop *)

(** The loop keeps the count and the array lengths, and leaves alone
    the slots of the vertices before its first index. *)
Lemma decodeLoop_frame (buffer : list byte) (props : list Property) (n : nat)
      (todo i off : nat) (d d' : ParsedSplatData num) :
  decodeLoop buffer props todo i off d = Ok d' ->
  sized n d ->
  d_vertexCount d' = d_vertexCount d /\ sized n d' /\
  (forall a j, j < i -> slot a d' j = slot a d j).
Proof.
  revert i off d. induction todo as [|todo IH]; intros i off d H Hs; cbn in H.
  - inversion H; subst. tauto.
  - destruct (length buffer <=? off)%nat; [inversion H; subst; tauto|].
    destruct (decodeProps buffer props off defaultVertex) as [[off1 v]|e];
      [|discriminate].
    cbn in H. destruct (IH _ _ _ H (sized_store n i v d Hs)) as (Hc & Hs' & Hk).
    split; [exact Hc|]. split; [exact Hs'|].
    intros a j Hj. rewrite Hk by lia. apply slot_store_other. lia.
Qed.

Lemma attrGet_default (a : Attr) : attrGet a defaultVertex = attrDefault (num := num) a.
Proof. destruct a; reflexivity. Qed.

(** Every record the loop starts inside the buffer ends in its slots. *)
Lemma decodeLoop_slots (buffer : list byte) (props : list Property) (n : nat)
      (todo i off : nat) (d d' : ParsedSplatData num) :
  decodeLoop buffer props todo i off d = Ok d' ->
  sized n d -> i + todo <= n ->
  forall m, m < todo -> off + m * stride props < length buffer ->
  exists v, decodeProps buffer props (off + m * stride props) defaultVertex
            = Ok (off + m * stride props + stride props, v) /\
            forall a, slot a d' (i + m) = Some (attrStored a (attrGet a v)).
Proof.
  revert i off d. induction todo as [|todo IH]; intros i off d H Hs Hn m Hm Hin.
  - lia.
  - cbn in H. destruct (Nat.leb_spec (length buffer) off) as [Hle|Hlt].
    + pose proof (Nat.le_add_r off (m * stride props)). lia.
    + destruct (decodeProps buffer props off defaultVertex) as [[off1 v]|e] eqn:E;
        [|discriminate].
      cbn in H. pose proof (decodeProps_offset _ _ _ _ _ _ E) as ->.
      destruct m as [|m].
      * exists v. cbn [Nat.mul]. rewrite !Nat.add_0_r. split; [exact E|].
        intros a.
        destruct (decodeLoop_frame _ _ n _ _ _ _ _ H (sized_store n i v d Hs))
          as (_ & _ & Hk).
        rewrite Hk by lia. apply (slot_store_same a n); [exact Hs | lia].
      * destruct (IH (S i) (off + stride props) (store i v d) H
                     (sized_store n i v d Hs) ltac:(lia) m ltac:(lia))
          as (v' & Ev & Hslots).
        { cbn [Nat.mul] in Hin. lia. }
        exists v'. cbn [Nat.mul].
        replace (off + (stride props + m * stride props))
          with (off + stride props + m * stride props) by lia.
        split; [exact Ev|].
        intros a. replace (i + S m) with (S i + m) by lia. apply Hslots.
Qed.

(** The loop returns when the body holds [k] whole records and, if
    that is fewer than asked, ends right after them; the slots from
    vertex [k] on are left as they were. *)
Lemma decodeLoop_ok (buffer : list byte) (props : list Property)
      (todo k i off : nat) (d : ParsedSplatData num) :
  k <= todo ->
  off + k * stride props <= length buffer ->
  (k < todo -> length buffer <= off + k * stride props) ->
  exists d', decodeLoop buffer props todo i off d = Ok d' /\
             forall a j, i + k <= j -> slot a d' j = slot a d j.
Proof.
  revert k i off d. induction todo as [|todo IH]; intros k i off d Hk Hfit Hend.
  - exists d. split; reflexivity.
  - cbn [decodeLoop]. destruct (Nat.leb_spec (length buffer) off) as [Hle|Hlt].
    + exists d. split; reflexivity.
    + destruct k as [|k]; [cbn in Hend; lia|].
      cbn [Nat.mul] in Hfit, Hend.
      destruct (decodeProps_ok buffer props off defaultVertex) as (v & ->); [lia|].
      cbn [bind fst snd].
      destruct (IH k (S i) (off + stride props) (store i v d)) as (d' & -> & Hk');
        [lia | lia | lia |].
      exists d'. split; [reflexivity|].
      intros a j Hj. rewrite Hk' by lia. apply slot_store_other. lia.
Qed.

(** *** The whole decode *)

Lemma sized_blank (rc : Z) :
  (0 <= rc)%Z -> sized (Z.to_nat rc) (blankData (num := num) rc).
Proof.
  intros H. unfold sized, blankData; cbn. rewrite !length_replicate.
  repeat split; lia.
Qed.

Lemma slot_blank (a : Attr) (rc : Z) (j : nat) :
  j < Z.to_nat rc -> slot a (blankData (num := num) rc) j = Some blank.
Proof.
  intros H. destruct a; cbn; apply lookup_replicate_2; lia.
Qed.

Lemma slot_beyond (a : Attr) (n j : nat) (d : ParsedSplatData num) :
  sized n d -> n <= j -> slot a d j = None.
Proof.
  intros (Hp & Hs & Hr & Ho & Hc) H.
  destruct a; cbn; apply lookup_ge_None_2; lia.
Qed.

Lemma parse_decodes (buffer : list byte) (h : Scan) (n : Z) :
  scanHeader buffer = Ok h -> isBinary h = true ->
  vertexCount h = Some n -> (0 <= n)%Z ->
  parsePlyFile (num := num) buffer =
  decodeLoop buffer (properties h) (Z.to_nat (renderCountOf n)) 0 (headerOffset h)
             (blankData (renderCountOf n)).
Proof.
  intros Hscan Hbin Hcount Hn. unfold parsePlyFile.
  rewrite Hscan. cbn [bind]. rewrite Hbin, Hcount. cbn [negb min_count option_map].
  fold (renderCountOf n).
  assert (Hrc : (0 <= renderCountOf n)%Z)
    by (unfold renderCountOf, MAX_VERTEX_COUNT; lia).
  unfold newFloat32Array, times, option_map.
  destruct (Z.ltb_spec (renderCountOf n * 3) 0); [lia|].
  destruct (Z.ltb_spec (renderCountOf n * 4) 0); [lia|].
  destruct (Z.ltb_spec (renderCountOf n) 0); [lia|].
  reflexivity.
Qed.

(** A body that holds [k] whole records, and ends there when [k] is
    less than the count of the loop. *)
Lemma parse_with_records (buffer : list byte) (h : Scan) (n : Z) (k : nat) :
  scanHeader buffer = Ok h -> isBinary h = true ->
  vertexCount h = Some n -> (0 <= n)%Z ->
  k <= Z.to_nat (renderCountOf n) ->
  headerOffset h + k * stride (properties h) <= length buffer ->
  (k < Z.to_nat (renderCountOf n) ->
   length buffer <= headerOffset h + k * stride (properties h)) ->
  exists d, parsePlyFile (num := num) buffer = Ok d /\
            d_vertexCount d = Some (renderCountOf n) /\
            sized (Z.to_nat (renderCountOf n)) d /\
            (forall a j, Z.to_nat (renderCountOf n) <= j -> slot a d j = None) /\
            (forall a j, k <= j < Z.to_nat (renderCountOf n) ->
                         slot a d j = Some blank) /\
            (forall m, m < k ->
               headerOffset h + m * stride (properties h) < length buffer ->
               exists v, recordAt buffer h m
                         = Ok (headerOffset h + m * stride (properties h)
                               + stride (properties h), v) /\
                         forall a, slot a d m = Some (attrStored a (attrGet a v))).
Proof.
  intros Hscan Hbin Hcount Hn Hk Hfit Hend.
  rewrite (parse_decodes buffer h n Hscan Hbin Hcount Hn).
  assert (Hrc : (0 <= renderCountOf n)%Z)
    by (unfold renderCountOf, MAX_VERTEX_COUNT; lia).
  destruct (decodeLoop_ok buffer (properties h) (Z.to_nat (renderCountOf n)) k 0
              (headerOffset h) (blankData (renderCountOf n)) Hk Hfit Hend)
    as (d & Hd & Hrest).
  destruct (decodeLoop_frame _ _ (Z.to_nat (renderCountOf n)) _ _ _ _ _ Hd
              (sized_blank _ Hrc)) as (Hc & Hs & _).
  exists d. split; [exact Hd|]. split; [exact Hc|]. split; [exact Hs|].
  split; [|split].
  - intros a j Hj. now apply (slot_beyond a (Z.to_nat (renderCountOf n))).
  - intros a j Hj. rewrite Hrest by lia. apply slot_blank. lia.
  - intros m Hm Hin.
    apply (decodeLoop_slots _ _ (Z.to_nat (renderCountOf n)) _ _ _ _ _ Hd
             (sized_blank _ Hrc) ltac:(lia) m ltac:(lia) Hin).
Qed.

(** The slots of a record that a successful decode started. *)
Lemma parse_slots (buffer : list byte) (h : Scan) (n : Z) (d : ParsedSplatData num)
      (i : nat) :
  scanHeader buffer = Ok h -> isBinary h = true ->
  vertexCount h = Some n -> (0 <= n)%Z ->
  parsePlyFile buffer = Ok d ->
  i < Z.to_nat (renderCountOf n) ->
  headerOffset h + i * stride (properties h) < length buffer ->
  exists v, recordAt buffer h i
            = Ok (headerOffset h + i * stride (properties h)
                  + stride (properties h), v) /\
            forall a, slot a d i = Some (attrStored a (attrGet a v)).
Proof.
  intros Hscan Hbin Hcount Hn Hd Hi Hin.
  rewrite (parse_decodes buffer h n Hscan Hbin Hcount Hn) in Hd.
  assert (Hrc : (0 <= renderCountOf n)%Z)
    by (unfold renderCountOf, MAX_VERTEX_COUNT; lia).
  apply (decodeLoop_slots _ _ (Z.to_nat (renderCountOf n)) _ _ _ _ _ Hd
           (sized_blank _ Hrc) ltac:(lia) i Hi Hin).
Qed.

Lemma parse_transforms (buffer : list byte) (h : Scan) (n : Z)
      (d : ParsedSplatData num) (i : nat) (a : Attr) :
  scanHeader buffer = Ok h -> isBinary h = true ->
  vertexCount h = Some n -> (0 <= n)%Z ->
  parsePlyFile buffer = Ok d ->
  i < Z.to_nat (renderCountOf n) ->
  headerOffset h + i * stride (properties h) < length buffer ->
  (forall p1 p p2,
      properties h = (p1 ++ p :: p2)%list -> sets a p = true ->
      Forall (fun q => sets a q = false) p2 ->
      exists value,
        getFloat32 buffer (headerOffset h + i * stride (properties h) + stride p1)
        = Ok value /\
        slot a d i = Some (attrStored a (attrTransform a value))) /\
  (Forall (fun q => sets a q = false) (properties h) ->
   slot a d i = Some (attrStored a (attrDefault a))).
Proof.
  intros Hscan Hbin Hcount Hn Hd Hi Hin.
  destruct (parse_slots buffer h n d i Hscan Hbin Hcount Hn Hd Hi Hin)
    as (v & Hv & Hslot).
  unfold recordAt in Hv. split.
  - intros p1 p p2 Hprops Hp Hno. rewrite Hprops in Hv at 1.
    destruct (decodeProps_sets a _ _ _ _ _ _ _ _ Hv Hp Hno) as (value & Hg & Ha).
    exists value. split; [exact Hg|]. now rewrite Hslot, Ha.
  - intros Hno. rewrite Hslot.
    now rewrite (decodeProps_keeps a _ _ _ _ _ _ Hv Hno), attrGet_default.
Qed.

(** C4. For an input whose scanned header asks for little-endian
    binary and declares [n >= 0] vertices, and whose body holds the
    records the loop reads, the decode returns data whose [vertexCount]
    is the smaller of [n] and 1,000,000; the arrays have that many
    vertices and no slot beyond. *)
Theorem vertexCount_is_capped_declared (buffer : list byte) (h : Scan) (n : Z) :
  scanHeader buffer = Ok h -> isBinary h = true ->
  declaredCount (scannedLines buffer) = Some n -> (0 <= n)%Z ->
  headerOffset h + Z.to_nat (Z.min n 1000000) * stride (properties h)
    <= length buffer ->
  exists d, parsePlyFile (num := num) buffer = Ok d /\
            d_vertexCount d = Some (Z.min n 1000000) /\
            sized (Z.to_nat (Z.min n 1000000)) d /\
            forall a j, Z.to_nat (Z.min n 1000000) <= j -> slot a d j = None.
Proof.
  intros Hscan Hbin Hdecl Hn Hfit.
  assert (Hcount : vertexCount h = Some n)
    by (now rewrite (scanHeader_count buffer h Hscan)).
  destruct (parse_with_records buffer h n (Z.to_nat (renderCountOf n))
              Hscan Hbin Hcount Hn (le_n _) Hfit ltac:(lia))
    as (d & Hd & Hc & Hs & Hnone & _).
  exists d. repeat split; try apply Hs; assumption.
Qed.

(** C1, as amended. When the body ends right after [k] whole records
    and [k] is less than the count of the loop, the decode throws
    nothing and returns [vertexCount] equal to the smaller of the
    declared count and 1,000,000, not [k]: the [k] records are in their
    slots and the slots of the later vertices are blank. *)
Theorem truncated_body_keeps_declared_count
        (buffer : list byte) (h : Scan) (n : Z) (k : nat) :
  scanHeader buffer = Ok h -> isBinary h = true ->
  declaredCount (scannedLines buffer) = Some n -> (0 <= n)%Z ->
  0 < stride (properties h) ->
  length buffer = headerOffset h + k * stride (properties h) ->
  k < Z.to_nat (renderCountOf n) ->
  readableRecords (length buffer) (headerOffset h) (stride (properties h)) = k /\
  exists d, parsePlyFile (num := num) buffer = Ok d /\
            d_vertexCount d = Some (renderCountOf n) /\
            sized (Z.to_nat (renderCountOf n)) d /\
            (forall a j, k <= j < Z.to_nat (renderCountOf n) ->
                         slot a d j = Some blank) /\
            (forall m, m < k ->
               exists v, recordAt buffer h m
                         = Ok (headerOffset h + m * stride (properties h)
                               + stride (properties h), v) /\
                         forall a, slot a d m = Some (attrStored a (attrGet a v))).
Proof.
  intros Hscan Hbin Hdecl Hn Hstride Hlen Hk.
  assert (Hcount : vertexCount h = Some n)
    by (now rewrite (scanHeader_count buffer h Hscan)).
  split.
  - unfold readableRecords. rewrite Hlen.
    replace (headerOffset h + k * stride (properties h) - headerOffset h)
      with (k * stride (properties h)) by lia.
    apply Nat.div_mul. lia.
  - destruct (parse_with_records buffer h n k Hscan Hbin Hcount Hn
                ltac:(lia) ltac:(lia) ltac:(lia))
      as (d & Hd & Hc & Hs & _ & Hblank & Hrec).
    exists d. repeat split; try apply Hs; try assumption.
    intros m Hm. apply Hrec; [exact Hm|]. rewrite Hlen.
    apply Nat.add_lt_mono_l. apply Nat.mul_lt_mono_pos_r; assumption.
Qed.

(** A body that ends inside a record: the read past the end throws. *)
Lemma half_record_throws :
  parsePlyFile (num := num) Samples.halfRecord = Throw RangeError.
Proof. vm_compute. reflexivity. Qed.

Lemma oneVertex_decoded :
  parsePlyFile (num := num) Samples.oneVertex = Ok Samples.oneVertexData.
Proof. vm_compute. reflexivity. Qed.

Lemma oneOfTwo_decoded :
  parsePlyFile (num := num) Samples.oneOfTwo = Ok Samples.oneOfTwoData.
Proof. vm_compute. reflexivity. Qed.

(** C3. When the file starts with header lines the scan passes over,
    then a line that trims to [end_header], then a line feed, the
    offset the scan returns is the length in bytes of that text, line
    feed included, whatever the lengths of the lines; the bytes from
    that offset on are the body, and that offset is where the vertex
    loop starts to read. *)
Theorem header_offset_exact (ls : list string) (line : string) (body : list byte) :
  Forall passes ls -> hasLF line = false -> isEndHeader line = true ->
  String.length (unlines ls ++ line) <= 5000 ->
  let header := unlines (ls ++ [line]) in
  let buffer := (list_byte_of_string header ++ body)%list in
  exists h, scanHeader buffer = Ok h /\
            headerOffset h = String.length header /\
            drop (headerOffset h) buffer = body /\
            forall n, isBinary h = true -> vertexCount h = Some n -> (0 <= n)%Z ->
              parsePlyFile (num := num) buffer =
              decodeLoop buffer (properties h) (Z.to_nat (renderCountOf n)) 0
                         (String.length header) (blankData (renderCountOf n)).
Proof.
  intros Hls Hline Hend Hlen header buffer.
  destruct (header_offset_at_end ls line body Hls Hline Hend Hlen)
    as (h & Hscan & Hoff & Hbody).
  exists h. split; [exact Hscan|]. split; [exact Hoff|]. split; [exact Hbody|].
  intros n Hbin Hcount Hn. fold header in Hoff. rewrite <- Hoff.
  now apply parse_decodes.
Qed.

(** C5. When a scanned header line starts with [format] and does not
    have [binary_little_endian 1.0] in it, and also when no scanned
    header line starts with [format], the decode throws one of the two
    format errors and hands back no data. *)
Theorem unsupported_format_rejected (buffer : list byte) :
  (exists l, In l (scannedLines buffer) /\
             isFormatLine l = true /\ isLittleEndianBinary l = false) \/
  (forall l, In l (scannedLines buffer) -> isFormatLine l = false) ->
  exists e, parsePlyFile (num := num) buffer = Throw e /\ UnsupportedFormat e.
Proof.
  intros [H|H].
  - exists (Error msgUnsupported). split; [now apply parse_bad_format | now left].
  - exists (Error msgNotBinary). split; [now apply parse_no_format | now right].
Qed.

(** C2, on the code. A header with no [end_header] line does not make
    the decode fail: on the sample the scan leaves [endHeaderIndex] at
    [-1], nothing reads it, and the decode returns data for the one
    declared vertex, every slot still blank. *)
Theorem no_end_header_still_decodes :
  (exists h, scanHeader Samples.noEndHeader = Ok h /\ endHeaderIndex h = (-1)%Z) /\
  parsePlyFile (num := num) Samples.noEndHeader =
    Ok {| d_vertexCount := Some 1%Z;
          positions := [blank; blank; blank];
          scales := [blank; blank; blank];
          rotations := [blank; blank; blank; blank];
          opacities := [blank];
          colors := [blank; blank; blank] |} /\
  ~ fails (parsePlyFile (num := num) Samples.noEndHeader).
Proof.
  assert (E : parsePlyFile (num := num) Samples.noEndHeader =
    Ok {| d_vertexCount := Some 1%Z;
          positions := [blank; blank; blank];
          scales := [blank; blank; blank];
          rotations := [blank; blank; blank; blank];
          opacities := [blank];
          colors := [blank; blank; blank] |}) by (vm_compute; reflexivity).
  split; [eexists; split; vm_compute; reflexivity|].
  split; [exact E|]. rewrite E. cbn. tauto.
Qed.

End Generic.

Import Real.

Lemma unsupported_format_rejected_witness :
  (exists e, parsePlyFile (num := R) Samples.asciiFormat = Throw e /\ UnsupportedFormat e) /\
  (exists e, parsePlyFile (num := R) Samples.noFormatLine = Throw e /\ UnsupportedFormat e).
Proof.
  split.
  - apply unsupported_format_rejected. left.
    exists "format ascii 1.0". split; [vm_compute; tauto | split; reflexivity].
  - apply unsupported_format_rejected. right.
    intros l Hl. vm_compute in Hl.
    repeat (destruct Hl as [<-|Hl]; [reflexivity|]). destruct Hl.
Defined.

Lemma scan_of_sample (buffer : list byte) :
  match scanHeader buffer with Ok _ => true | Throw _ => false end = true ->
  scanHeader buffer = Ok (Samples.scanOf buffer).
Proof.
  unfold Samples.scanOf. destruct (scanHeader buffer); [reflexivity | discriminate].
Qed.

Lemma header_offset_exact_witness :
  exists h, scanHeader Samples.uneven = Ok h /\
            headerOffset h
            = String.length (unlines (Samples.unevenLines ++ [Samples.unevenEnd])) /\
            drop (headerOffset h) Samples.uneven = Samples.f32_3.
Proof.
  assert (Hls : Forall passes Samples.unevenLines).
  { repeat constructor; vm_compute; intros; (reflexivity || discriminate). }
  assert (Hlen : String.length (unlines Samples.unevenLines ++ Samples.unevenEnd) <= 5000).
  { vm_compute. lia. }
  destruct (header_offset_exact (num := R) Samples.unevenLines Samples.unevenEnd
              Samples.f32_3 Hls eq_refl eq_refl Hlen) as (h & H1 & H2 & H3 & _).
  exists h. auto.
Defined.

Lemma vertexCount_is_capped_declared_witness :
  exists d, parsePlyFile (num := R) Samples.oneVertex = Ok d /\
            d_vertexCount d = Some (Z.min 1 1000000) /\
            sized (Z.to_nat (Z.min 1 1000000)) d /\
            forall a j, Z.to_nat (Z.min 1 1000000) <= j -> slot a d j = None.
Proof.
  apply (vertexCount_is_capped_declared Samples.oneVertex
           (Samples.scanOf Samples.oneVertex) 1).
  - apply scan_of_sample. vm_compute. reflexivity.
  - vm_compute. reflexivity.
  - vm_compute. reflexivity.
  - lia.
  - vm_compute. lia.
Defined.

Lemma truncated_body_keeps_declared_count_witness :
  readableRecords (length Samples.oneOfTwo)
                  (headerOffset (Samples.scanOf Samples.oneOfTwo))
                  (stride (properties (Samples.scanOf Samples.oneOfTwo))) = 1 /\
  exists d, parsePlyFile (num := R) Samples.oneOfTwo = Ok d /\
            d_vertexCount d = Some 2%Z /\
            forall a, slot a d 1 = Some blank.
Proof.
  destruct (truncated_body_keeps_declared_count (num := R) Samples.oneOfTwo
              (Samples.scanOf Samples.oneOfTwo) 2 1) as (Hr & d & Hd & Hc & _ & Hb & _).
  - apply scan_of_sample. vm_compute. reflexivity.
  - vm_compute. reflexivity.
  - vm_compute. reflexivity.
  - lia.
  - vm_compute. lia.
  - vm_compute. reflexivity.
  - vm_compute. lia.
  - split; [exact Hr|]. exists d. split; [exact Hd|]. split; [exact Hc|].
    intros a. apply Hb. vm_compute. lia.
Defined.

(** The claim C1 as it is worded fails on the file that declares two
    vertices and holds one record: the decode returns, and its
    [vertexCount] is 2, not the one record that can be read. *)
Lemma truncated_count_is_not_readable_count :
  ~ exists d, parsePlyFile (num := R) Samples.oneOfTwo = Ok d /\
              d_vertexCount d =
              Some (Z.of_nat (readableRecords
                                (length Samples.oneOfTwo)
                                (headerOffset (Samples.scanOf Samples.oneOfTwo))
                                (stride (properties (Samples.scanOf Samples.oneOfTwo))))).
Proof.
  intros (d & Hd & Hc). rewrite oneOfTwo_decoded in Hd. inversion Hd; subst d.
  vm_compute in Hc. discriminate Hc.
Qed.

Local Open Scope R_scope.

Lemma oneVertex_values :
  positions (Samples.oneVertexData (num := R)) = [1; 2; 3] /\
  scales (Samples.oneVertexData (num := R)) = [1 / 10; 1 / 10; 1 / 10] /\
  rotations (Samples.oneVertexData (num := R)) = [1; 0; 0; 0] /\
  opacities (Samples.oneVertexData (num := R)) = [1 / 2] /\
  colors (Samples.oneVertexData (num := R)) = [1 / 2; 1 / 2; 1 / 2].
Proof.
  unfold Samples.oneVertexData, clamp01.
  cbn [positions scales rotations opacities colors].
  cbn [to_f32 f32_of_bits lit fadd fmul fdiv fneg Math_exp Math_max Math_min RNumber].
  rewrite RealFacts.f32_bits_0, RealFacts.f32_bits_1, RealFacts.f32_bits_2,
    RealFacts.f32_bits_3.
  RealFacts.q2r. rewrite Ropp_0, exp_0, Rmult_0_r, Rplus_0_r, RealFacts.clamp_half.
  repeat split; repeat f_equal; lra.
Qed.

(** C6. In the data of a decode that returns, take a vertex whose record
    starts inside the buffer, and any of the fourteen attributes. If the
    schema has a float property of the attribute's name, the slot holds
    the transform of the float read at that property's place in the
    record (of the last such property, if there are several): the value
    itself for [x], [y], [z] and [rot_0..3]; its exponential for
    [scale_0..2]; [1 / (1 + exp (- value))] for [opacity];
    [0.5 + 0.28209479177387814 * value], clamped to [0,1], for
    [f_dc_0..2]. If the schema has no such property, the slot holds the
    default: position 0, scale 0.1, rotation (1,0,0,0), opacity 1.0,
    colour 0.5. Every value is narrowed to single precision by its store;
    where narrowing a single gives it back, the position and rotation
    slots hold the very float that was read.
    Over the reals the one-vertex file with [x = 1], [y = 2], [z = 3],
    [opacity = 0], [f_dc_0 = 0] decodes to position (1,2,3), opacity 1/2
    and colour (1/2,1/2,1/2), scale and rotation at their defaults. *)
Theorem float_properties_transformed :
  (forall (num : Type) (N : JSNumber num) (buffer : list byte) (h : Scan) (n : Z)
          (d : ParsedSplatData num) (i : nat) (a : Attr),
      scanHeader buffer = Ok h -> isBinary h = true ->
      declaredCount (scannedLines buffer) = Some n -> (0 <= n)%Z ->
      parsePlyFile buffer = Ok d ->
      (i < Z.to_nat (renderCountOf n))%nat ->
      (headerOffset h + i * stride (properties h) < length buffer)%nat ->
      (forall p1 p p2,
          properties h = (p1 ++ p :: p2)%list -> sets a p = true ->
          Forall (fun q => sets a q = false) p2 ->
          exists value,
            getFloat32 buffer (headerOffset h + i * stride (properties h) + stride p1)
            = Ok value /\
            slot a d i = Some (attrStored a (attrTransform a value))) /\
      (Forall (fun q => sets a q = false) (properties h) ->
       slot a d i = Some (attrStored a (attrDefault a)))) /\
  (forall (num : Type) (N : JSNumber num) (a : Attr) (buffer : list byte)
          (off : nat) (value : num),
      (forall bits, to_f32 (f32_of_bits bits) = f32_of_bits bits) ->
      getFloat32 buffer off = Ok value -> copies a = true ->
      attrStored a (attrTransform a value) = value) /\
  (exists d, parsePlyFile (num := R) Samples.oneVertex = Ok d /\
             positions d = [1; 2; 3] /\
             scales d = [1 / 10; 1 / 10; 1 / 10] /\
             rotations d = [1; 0; 0; 0] /\
             opacities d = [1 / 2] /\
             colors d = [1 / 2; 1 / 2; 1 / 2]).
Proof.
  split; [|split].
  - intros num N buffer h n d i a Hscan Hbin Hdecl.
    apply parse_transforms; try assumption.
    now rewrite (scanHeader_count buffer h Hscan).
  - intros num N a buffer off value. apply copied_exactly.
  - exists Samples.oneVertexData. split; [apply oneVertex_decoded | apply oneVertex_values].
Qed.

Lemma float_properties_transformed_witness :
  (exists value,
      getFloat32 (num := R) Samples.oneVertex
                 (headerOffset (Samples.scanOf Samples.oneVertex) + 0 + 12) = Ok value /\
      slot Opacity (Samples.oneVertexData (num := R)) 0
      = Some (attrStored Opacity (attrTransform Opacity value))) /\
  slot Scale1 (Samples.oneVertexData (num := R)) 0
  = Some (attrStored Scale1 (attrDefault Scale1)) /\
  (exists value,
      getFloat32 (num := R) Samples.oneVertex
                 (headerOffset (Samples.scanOf Samples.oneVertex)) = Ok value /\
      attrStored PosX (attrTransform PosX value) = value).
Proof.
  pose proof (proj1 float_properties_transformed R _ Samples.oneVertex
                (Samples.scanOf Samples.oneVertex) 1%Z Samples.oneVertexData 0%nat) as T.
  assert (Hscan : scanHeader Samples.oneVertex = Ok (Samples.scanOf Samples.oneVertex))
    by (apply scan_of_sample; vm_compute; reflexivity).
  assert (Hin : (headerOffset (Samples.scanOf Samples.oneVertex)
                 + 0 * stride (properties (Samples.scanOf Samples.oneVertex))
                 < length Samples.oneVertex)%nat) by (vm_compute; lia).
  assert (Hi : (0 < Z.to_nat (renderCountOf 1))%nat) by (vm_compute; lia).
  split; [|split].
  - destruct (T Opacity Hscan eq_refl eq_refl ltac:(lia) oneVertex_decoded Hi Hin)
      as (Hset & _).
    apply (Hset [mkProperty (Some "x") (Some "float");
                 mkProperty (Some "y") (Some "float");
                 mkProperty (Some "z") (Some "float")]
                (mkProperty (Some "opacity") (Some "float"))
                [mkProperty (Some "f_dc_0") (Some "float")]).
    + vm_compute. reflexivity.
    + reflexivity.
    + repeat constructor.
  - destruct (T Scale1 Hscan eq_refl eq_refl ltac:(lia) oneVertex_decoded Hi Hin)
      as (_ & Hdef).
    apply Hdef. vm_compute. repeat constructor.
  - destruct (getFloat32_ok (num := R) Samples.oneVertex
                (headerOffset (Samples.scanOf Samples.oneVertex)))
      as (value & Hv); [vm_compute; lia|].
    exists value. split; [exact Hv|].
    exact (proj1 (proj2 float_properties_transformed) R _ PosX Samples.oneVertex _ value
             (fun _ => eq_refl) Hv eq_refl).
Defined.

End PlyFacts.


(** * Further properties of the decoder *)

Module DecoderFacts.
Import JS Header Ply PlySpec DecoderSpec TextFacts HeaderFacts PlyFacts.

Section Generic.
Context {num : Type} {N : JSNumber num}.

(** The shape of whatever the decode returns: the count is [NaN] and
    all five arrays are empty, or the count lies between 0 and 1,000,000
    and the arrays have the lengths of that many vertices (three, three,
    four, one and three numbers a vertex). *)
Theorem decoded_shape (buffer : list byte) (d : ParsedSplatData num) :
  parsePlyFile buffer = Ok d ->
  d = emptyData None \/
  exists z, d_vertexCount d = Some z /\ (0 <= z <= 1000000)%Z /\
            sized (Z.to_nat z) d.
Proof.
  intros Hp. pose proof Hp as H. unfold parsePlyFile in H.
  destruct (scanHeader buffer) as [h|e] eqn:Hscan; [|discriminate].
  cbn [bind] in H. destruct (isBinary h) eqn:Hbin; [|discriminate].
  cbn [negb] in H. destruct (vertexCount h) as [n|] eqn:Hcount.
  - right. destruct (Z.ltb_spec n 0) as [Hneg|Hpos].
    + exfalso. cbn in H. unfold newFloat32Array in H.
      destruct (Z.ltb_spec (Z.min n MAX_VERTEX_COUNT * 3) 0); [discriminate|].
      unfold MAX_VERTEX_COUNT in *. lia.
    + rewrite (parse_decodes buffer h n Hscan Hbin Hcount Hpos) in Hp.
      assert (Hrc : (0 <= renderCountOf n)%Z)
        by (unfold renderCountOf, MAX_VERTEX_COUNT; lia).
      destruct (decodeLoop_frame _ _ (Z.to_nat (renderCountOf n)) _ _ _ _ _ Hp
                  (sized_blank _ Hrc)) as (Hc & Hs & _).
      exists (renderCountOf n). split; [exact Hc|]. split; [|exact Hs].
      unfold renderCountOf, MAX_VERTEX_COUNT. lia.
  - left. cbn in H. now inversion H.
Qed.

(** A declared count below zero makes the allocation of the arrays
    throw: the decode ends in a [RangeError]. *)
Theorem negative_count_throws (buffer : list byte) (h : Scan) (n : Z) :
  scanHeader buffer = Ok h -> isBinary h = true ->
  declaredCount (scannedLines buffer) = Some n -> (n < 0)%Z ->
  parsePlyFile (num := num) buffer = Throw RangeError.
Proof.
  intros Hscan Hbin Hdecl Hn. unfold parsePlyFile. rewrite Hscan. cbn [bind].
  rewrite Hbin, (scanHeader_count buffer h Hscan), Hdecl. cbn.
  unfold MAX_VERTEX_COUNT.
  destruct (Z.ltb_spec (Z.min n 1000000 * 3) 0); [reflexivity | lia].
Qed.

(** A count that does not parse ([NaN]) is no error: the decode returns
    a [NaN] count with five empty arrays, whatever the body holds. *)
Theorem unparsed_count_gives_empty (buffer : list byte) (h : Scan) :
  scanHeader buffer = Ok h -> isBinary h = true ->
  declaredCount (scannedLines buffer) = None ->
  parsePlyFile (num := num) buffer = Ok (emptyData None).
Proof.
  intros Hscan Hbin Hdecl. unfold parsePlyFile. rewrite Hscan. cbn [bind].
  rewrite Hbin, (scanHeader_count buffer h Hscan), Hdecl. reflexivity.
Qed.

Lemma countFrom_unopened (init : option Z) (lines : list string) :
  (forall l, In l lines -> opensVertex l = false) -> countFrom init lines = init.
Proof.
  revert init. induction lines as [|l lines IH]; intros init H; [reflexivity|].
  unfold countFrom in *. cbn [fold_left]. rewrite (H l) by now left.
  apply IH. intros l' Hl'. apply H. now right.
Qed.

(** A header with no line that starts with [element vertex] is no
    error: the decode returns the count 0 with five empty arrays,
    whatever the body holds. *)
Theorem no_vertex_element_gives_empty (buffer : list byte) (h : Scan) :
  scanHeader buffer = Ok h -> isBinary h = true ->
  (forall l, In l (scannedLines buffer) -> opensVertex l = false) ->
  parsePlyFile (num := num) buffer = Ok (emptyData (Some 0%Z)).
Proof.
  intros Hscan Hbin Hno. unfold parsePlyFile. rewrite Hscan. cbn [bind].
  rewrite Hbin, (scanHeader_count buffer h Hscan).
  unfold declaredCount. rewrite (countFrom_unopened _ _ Hno). reflexivity.
Qed.

(** Data comes back only from a header that says so: when the decode
    returns, some scanned line starts with [format] and has
    [binary_little_endian 1.0] in it, and no scanned line that starts
    with [format] lacks it. *)
Theorem decoded_only_with_format (buffer : list byte) (d : ParsedSplatData num) :
  parsePlyFile buffer = Ok d ->
  (exists l, In l (scannedLines buffer) /\
             isFormatLine l = true /\ isLittleEndianBinary l = true) /\
  (forall l, In l (scannedLines buffer) ->
             isFormatLine l = true -> isLittleEndianBinary l = true).
Proof.
  intros H.
  assert (Hall : forall l, In l (scannedLines buffer) ->
                           isFormatLine l = true -> isLittleEndianBinary l = true).
  { intros l Hl Hf. destruct (isLittleEndianBinary l) eqn:Hb; [reflexivity|].
    rewrite (parse_bad_format buffer) in H; [discriminate|]. now exists l. }
  split; [|exact Hall].
  destruct (existsb isFormatLine (scannedLines buffer)) eqn:Hex.
  - apply existsb_exists in Hex as (l & Hl & Hf). exists l. auto.
  - rewrite (parse_no_format buffer) in H; [discriminate|].
    intros l Hl. destruct (isFormatLine l) eqn:Hf; [|reflexivity].
    assert (Ht : existsb isFormatLine (scannedLines buffer) = true)
      by (apply existsb_exists; now exists l).
    congruence.
Qed.

(** *** The scan and the body *)

Lemma headerLines_of_text (ls : list string) (line : string) (body : list byte) :
  Forall headerLine ls -> hasLF line = false ->
  String.length (unlines ls ++ line) <= 5000 ->
  exists more,
    headerLinesOf (list_byte_of_string (unlines (ls ++ [line])) ++ body)
    = (ls ++ line :: more)%list.
Proof.
  intros Hls Hline Hlen. unfold headerLinesOf.
  rewrite unlines_snoc, <- append_assoc, bytes_append, <- app_assoc.
  rewrite take_app_ge by (rewrite length_bytes; exact Hlen).
  rewrite decodeAscii_app, decodeAscii_bytes, append_assoc.
  rewrite split_unlines
    by (eapply Forall_impl; [exact Hls | now intros l (H & _)]).
  destruct (take _ _) as [|b tl] eqn:Etake.
  - exists []. cbn. now rewrite append_nil_r, (split_last _ Hline).
  - assert (Hb : b = byte_of_ascii LF).
    { destruct (_ - _) as [|m]; [discriminate|]. cbn in Etake. now inversion Etake. }
    subst b. exists (split LF (decodeAscii tl)).
    change (decodeAscii (byte_of_ascii LF :: tl)) with (String LF (decodeAscii tl)).
    now rewrite (split_line _ _ Hline).
Qed.

Lemma exactHeaderLength_at (ls more : list string) (line : string) :
  exactHeaderLength (ls ++ line :: more) (length ls)
  = String.length (unlines (ls ++ [line])).
Proof.
  unfold exactHeaderLength.
  replace (length ls + 1) with (length (ls ++ [line])) by (rewrite length_app; reflexivity).
  replace (ls ++ line :: more)%list with ((ls ++ [line]) ++ more)%list
    by now rewrite <- app_assoc.
  rewrite take_app_length, join_snoc.
  now rewrite unlines_snoc, <- append_assoc.
Qed.

Lemma scan_prefix_only (hl1 hl2 ls more1 more2 : list string) (line : string)
      (i : nat) (s : Scan) :
  Forall headerLine ls -> isEndHeader line = true ->
  exactHeaderLength hl1 (i + length ls) = exactHeaderLength hl2 (i + length ls) ->
  scanLines hl1 (ls ++ line :: more1) i s = scanLines hl2 (ls ++ line :: more2) i s.
Proof.
  intros Hls Hend. revert i s.
  induction Hls as [|l ls (_ & Hne) _ IH]; intros i s Hlen.
  - cbn. unfold isEndHeader in Hend. rewrite Hend.
    cbn [length] in Hlen. rewrite Nat.add_0_r in Hlen. now rewrite Hlen.
  - cbn. unfold isEndHeader in Hne. rewrite Hne.
    destruct (checkFormat (trim l) _) as [s1|e]; [|reflexivity].
    cbn [bind]. apply IH. cbn [length] in Hlen. now rewrite Nat.add_succ_r in Hlen.
Qed.

(** The scan does not depend on the body. Two files that start with
    the same header, with its [end_header] line inside the first 5000
    bytes, scan alike, to the same offset, count and schema or to the
    same error, whatever bytes follow the line feed of that line. *)
Theorem scan_ignores_body (ls : list string) (line : string) (body1 body2 : list byte) :
  Forall headerLine ls -> hasLF line = false -> isEndHeader line = true ->
  String.length (unlines ls ++ line) <= 5000 ->
  scanHeader (list_byte_of_string (unlines (ls ++ [line])) ++ body1)
  = scanHeader (list_byte_of_string (unlines (ls ++ [line])) ++ body2).
Proof.
  intros Hls Hline Hend Hlen.
  destruct (headerLines_of_text ls line body1 Hls Hline Hlen) as (more1 & H1).
  destruct (headerLines_of_text ls line body2 Hls Hline Hlen) as (more2 & H2).
  unfold scanHeader. rewrite H1, H2.
  apply scan_prefix_only; [exact Hls | exact Hend |].
  cbn [Nat.add]. now rewrite !exactHeaderLength_at.
Qed.

(** *** Properties of unknown type *)



(** *** A body that ends inside a record *)

Lemma decodeProps_short (buffer : list byte) (props : list Property)
      (off : nat) (v : Vertex num) :
  allFloat props -> off <= length buffer -> length buffer < off + stride props ->
  decodeProps buffer props off v = Throw RangeError.
Proof.
  intros Hfl. revert off v. induction Hfl as [|p props Hp _ IH]; intros off v Hle Hlt.
  - cbn in Hlt. lia.
  - change (stride (p :: props)) with (width p + stride props) in Hlt.
    unfold width in Hlt. rewrite Hp in Hlt. cbn [decodeProps]. rewrite Hp.
    destruct (Nat.le_gt_cases (off + 4) (length buffer)) as [Hfit|Hshort].
    + destruct (getFloat32_ok (num := num) buffer off Hfit) as (value & ->).
      cbn [bind]. apply IH; lia.
    + now rewrite (getFloat32_short buffer off Hshort).
Qed.

Lemma decodeLoop_partial (buffer : list byte) (props : list Property)
      (k todo i off : nat) (d : ParsedSplatData num) :
  allFloat props -> k < todo ->
  off + k * stride props < length buffer ->
  length buffer < off + k * stride props + stride props ->
  decodeLoop buffer props todo i off d = Throw RangeError.
Proof.
  intros Hfl. revert todo i off d.
  induction k as [|k IH]; intros todo i off d Hk Hin Hout;
    (destruct todo as [|todo]; [lia|]); cbn [decodeLoop].
  - cbn [Nat.mul] in Hin, Hout. rewrite Nat.add_0_r in Hin, Hout.
    destruct (Nat.leb_spec (length buffer) off) as [Hle|_]; [lia|].
    now rewrite (decodeProps_short buffer props off defaultVertex Hfl) by lia.
  - cbn [Nat.mul] in Hin, Hout.
    destruct (Nat.leb_spec (length buffer) off) as [Hle|_]; [lia|].
    destruct (decodeProps_ok buffer props off defaultVertex) as (v & ->); [lia|].
    cbn [bind fst snd]. apply IH; lia.
Qed.

(** A truncated body is not always forgiven. With a schema of float
    properties only, when the body ends inside a record that the loop
    would decode, the read past the end throws: the decode ends in a
    [RangeError] and hands back none of the records before it. *)
Theorem partial_record_throws (buffer : list byte) (h : Scan) (n : Z) (k : nat) :
  scanHeader buffer = Ok h -> isBinary h = true ->
  declaredCount (scannedLines buffer) = Some n -> (0 <= n)%Z ->
  allFloat (properties h) ->
  k < Z.to_nat (Z.min n 1000000) ->
  headerOffset h + k * stride (properties h) < length buffer ->
  length buffer < headerOffset h + k * stride (properties h) + stride (properties h) ->
  parsePlyFile (num := num) buffer = Throw RangeError.
Proof.
  intros Hscan Hbin Hdecl Hn Hfl Hk Hin Hout.
  assert (Hcount : vertexCount h = Some n)
    by (now rewrite (scanHeader_count buffer h Hscan)).
  rewrite (parse_decodes buffer h n Hscan Hbin Hcount Hn).
  now apply (decodeLoop_partial buffer (properties h) k).
Qed.


End Generic.
Import Real RealFacts.

Lemma decoded_shape_witness :
  Samples.oneVertexData (num := R) = emptyData None \/
  exists z, d_vertexCount (Samples.oneVertexData (num := R)) = Some z /\
            (0 <= z <= 1000000)%Z /\
            sized (Z.to_nat z) (Samples.oneVertexData (num := R)).
Proof.
  exact (decoded_shape Samples.oneVertex Samples.oneVertexData oneVertex_decoded).
Defined.

Lemma negative_count_throws_witness :
  parsePlyFile (num := R) negativeCount = Throw RangeError.
Proof.
  apply (negative_count_throws negativeCount (Samples.scanOf negativeCount) (-3)).
  - apply PlyFacts.scan_of_sample. vm_compute. reflexivity.
  - vm_compute. reflexivity.
  - vm_compute. reflexivity.
  - lia.
Defined.

Lemma partial_record_throws_witness :
  parsePlyFile (num := R) Samples.halfRecord = Throw RangeError.
Proof.
  apply (partial_record_throws Samples.halfRecord (Samples.scanOf Samples.halfRecord) 1 0).
  - apply PlyFacts.scan_of_sample. vm_compute. reflexivity.
  - vm_compute. reflexivity.
  - vm_compute. reflexivity.
  - lia.
  - repeat constructor.
  - vm_compute. lia.
  - vm_compute. lia.
  - vm_compute. lia.
Defined.

Lemma unparsed_count_gives_empty_witness :
  parsePlyFile (num := R) missingCount = Ok (emptyData None).
Proof.
  apply (unparsed_count_gives_empty missingCount (Samples.scanOf missingCount)).
  - apply PlyFacts.scan_of_sample. vm_compute. reflexivity.
  - vm_compute. reflexivity.
  - vm_compute. reflexivity.
Defined.

Lemma no_vertex_element_gives_empty_witness :
  parsePlyFile (num := R) facesOnly = Ok (emptyData (Some 0%Z)).
Proof.
  apply (no_vertex_element_gives_empty facesOnly (Samples.scanOf facesOnly)).
  - apply PlyFacts.scan_of_sample. vm_compute. reflexivity.
  - vm_compute. reflexivity.
  - intros l Hl. vm_compute in Hl.
    repeat (destruct Hl as [<-|Hl]; [reflexivity|]). destruct Hl.
Defined.

Lemma decoded_only_with_format_witness :
  (exists l, In l (scannedLines Samples.oneVertex) /\
             isFormatLine l = true /\ isLittleEndianBinary l = true) /\
  (forall l, In l (scannedLines Samples.oneVertex) ->
             isFormatLine l = true -> isLittleEndianBinary l = true).
Proof.
  exact (decoded_only_with_format (num := R) Samples.oneVertex Samples.oneVertexData
           oneVertex_decoded).
Defined.

Lemma scan_ignores_body_witness :
  scanHeader (list_byte_of_string (unlines (Samples.unevenLines ++ [Samples.unevenEnd]))
              ++ Samples.f32_3)
  = scanHeader (list_byte_of_string (unlines (Samples.unevenLines ++ [Samples.unevenEnd]))
                ++ list_byte_of_string "format ascii 1.0").
Proof.
  apply scan_ignores_body.
  - repeat constructor.
  - reflexivity.
  - reflexivity.
  - vm_compute. lia.
Defined.

Local Open Scope R_scope.











End DecoderFacts.

(** * Further properties of the camera *)

Module EventFacts.
Import Camera CameraSpec Events Real RealMore RealFacts CameraFacts.
Local Open Scope R_scope.

Lemma radius_wheel (d : R) (s : State R) :
  radius (wheel d s) = Rmax (1 / 10) (radius s + d * (1 / 100) * (radius s * (1 / 10))).
Proof.
  unfold wheel. cbn [radius]. cbn [fadd fmul lit Math_max RNumber]. now q2r.
Qed.

(** Zoom. After a wheel event the radius is at least 0.1, so it is never
    zero or negative, whatever the state and the delta. From a radius of
    at least 0.1, a negative delta does not widen the orbit and a positive
    one does not narrow it; while the floor is not reached the radius is
    multiplied by [1 + deltaY / 1000]. *)
Theorem zoom_keeps_radius_floor (d : R) (s : State R) :
  1 / 10 <= radius (wheel d s) /\
  (1 / 10 <= radius s ->
   (d <= 0 -> radius (wheel d s) <= radius s) /\
   (0 <= d -> radius s <= radius (wheel d s)) /\
   (1 / 10 <= radius s * (1 + d / 1000) ->
    radius (wheel d s) = radius s * (1 + d / 1000))).
Proof.
  rewrite radius_wheel. split; [apply Rmax_l|].
  intros Hr. repeat split.
  - intros Hd. apply Rmax_lub; [exact Hr|]. nra.
  - intros Hd. eapply Rle_trans; [|apply Rmax_r]. nra.
  - intros Hfloor. rewrite Rmax_right by lra. lra.
Qed.

Lemma zoom_keeps_radius_floor_witness :
  1 / 10 <= radius (wheel (-5000) (initial (num := R))) /\
  radius (wheel (-5000) (initial (num := R))) <= radius (initial (num := R)) /\
  radius (wheel 100 (initial (num := R))) = radius (initial (num := R)) * (1 + 100 / 1000).
Proof.
  assert (Hr : 1 / 10 <= radius (initial (num := R)))
    by (cbn; q2r; lra).
  split; [exact (proj1 (zoom_keeps_radius_floor (-5000) initial))|].
  split.
  - apply (proj1 (proj2 (zoom_keeps_radius_floor (-5000) initial) Hr)). lra.
  - apply (proj2 (proj2 (proj2 (zoom_keeps_radius_floor 100 initial) Hr))).
    cbn. q2r. lra.
Defined.

Lemma wellFormed_same (s s' : State R) :
  pitch s' = pitch s -> radius s' = radius s ->
  (isDragging s' = false -> dragButton s' = (-1)%Z) ->
  wellFormed s -> wellFormed s'.
Proof.
  intros Hp Hr Hd (Hp0 & Hr0 & _). unfold wellFormed. rewrite Hp, Hr. auto.
Qed.

Lemma handle_wellFormed (s : State R) (e : Event R) :
  wellFormed s -> wellFormed (handle s e).
Proof.
  intros Hs. pose proof Hs as (Hp & Hr & Hd).
  destruct e as [b x y| |x y|d]; cbn [handle].
  - apply (wellFormed_same s); [reflexivity | reflexivity | discriminate | exact Hs].
  - apply (wellFormed_same s); [reflexivity | reflexivity | reflexivity | exact Hs].
  - unfold mousemove. destruct (isDragging s) eqn:Hdrag; cbn [negb]; [|exact Hs].
    cbn [dragButton isDragging]. destruct (dragButton s =? 0)%Z.
    + split; [apply pitch_rotate|]. split; [exact Hr|].
      cbn [rotate isDragging]. discriminate.
    + destruct (dragButton s =? 2)%Z.
      * apply (wellFormed_same s); [reflexivity | reflexivity | | exact Hs].
        cbn [pan isDragging]. discriminate.
      * apply (wellFormed_same s); [reflexivity | reflexivity | | exact Hs].
        cbn [isDragging]. discriminate.
  - split; [exact Hp|]. split; [|exact Hd].
    rewrite radius_wheel. apply Rmax_l.
Qed.

(** The camera invariant. After any sequence of pointer and wheel events
    from the state the renderer starts in, the pitch lies between
    [-PI/2 + 0.01] and [PI/2 - 0.01], the radius is at least 0.1, and
    the drag button is [-1] whenever no drag is under way. *)
Theorem events_keep_camera_invariant (es : list (Event R)) :
  pitchMin <= pitch (run es initial) <= pitchMax /\
  1 / 10 <= radius (run es initial) /\
  (isDragging (run es initial) = false -> dragButton (run es initial) = (-1)%Z).
Proof.
  change (wellFormed (run es initial)).
  assert (H0 : wellFormed (initial (num := R))).
  { unfold wellFormed. cbn [isDragging dragButton initial].
    split; [|split; [cbn; q2r; lra | reflexivity]].
    pose proof pitch_bounds_ordered. unfold pitch, pitchMin, pitchMax in *.
    cbn in *. revert H. q2r. pose proof PI2_1. lra. }
  revert H0. generalize (initial (num := R)) as s. unfold run.
  induction es as [|e es IH]; intros s Hs; [exact Hs|].
  cbn [fold_left]. apply IH. now apply handle_wellFormed.
Qed.

Lemma events_keep_camera_invariant_witness :
  dragButton (run [Wheel (-5000); MouseDown 0%Z 1 1; MouseMove 4 1000; MouseUp]
                  (initial (num := R))) = (-1)%Z.
Proof.
  apply (events_keep_camera_invariant
           [Wheel (-5000); MouseDown 0%Z 1 1; MouseMove 4 1000; MouseUp]).
  reflexivity.
Defined.

(** *** Drags *)

Lemma last_cons {A : Type} (a d : A) (l : list A) : List.last (a :: l) d = List.last l a.
Proof.
  revert a d. induction l as [|b l IH]; intros a d; [reflexivity|].
  change (List.last (a :: b :: l) d) with (List.last (b :: l) d).
  now rewrite !IH.
Qed.

Lemma run_moves_cons (p : R * R) (points : list (R * R)) (s : State R) :
  run (moves (p :: points)) s = run (moves points) (mousemove (fst p) (snd p) s).
Proof. reflexivity. Qed.

Lemma yaw_rotate (dx dy : R) (s : State R) :
  yaw (rotate dx dy s) = yaw s - dx * (5 / 1000).
Proof.
  unfold yaw, rotate. cbn [camRot y2]. cbn [fsub fmul lit RNumber]. now q2r.
Qed.

Lemma left_drag_yaw (points : list (R * R)) (s : State R) :
  isDragging s = true -> dragButton s = 0%Z ->
  yaw (run (moves points) s)
  = yaw s - (fst (List.last points (x2 (lastMouse s), y2 (lastMouse s)))
             - x2 (lastMouse s)) * (5 / 1000).
Proof.
  revert s. induction points as [|p points IH]; intros s Hd Hb.
  - cbn. ring.
  - rewrite run_moves_cons, last_cons.
    assert (Hm : mousemove (fst p) (snd p) s
                 = rotate (fst p - x2 (lastMouse s)) (snd p - y2 (lastMouse s))
                     (mkState (target s) (radius s) (camRot s) (isDragging s)
                              (dragButton s) (mkVec2 (fst p) (snd p)))).
    { unfold mousemove. rewrite Hd. cbn [negb dragButton]. now rewrite Hb. }
    rewrite IH; rewrite Hm; try (cbn [rotate isDragging dragButton]; assumption).
    rewrite yaw_rotate. cbn [rotate lastMouse x2 y2]. unfold yaw. cbn [camRot].
    destruct p as [px py]. cbn [fst snd]. ring.
Qed.

(** A left-button drag turns the camera by the way the pointer has gone
    sideways, not by its path: after a press at [(x0, y0)] and moves
    through any points, the yaw is the yaw before minus 0.005 times the
    horizontal distance from [x0] to the last point. *)
Theorem drag_yaw_follows_pointer (s : State R) (x0 y0 : R) (points : list (R * R)) :
  yaw (run (moves points) (mousedown 0 x0 y0 s))
  = yaw s - (fst (List.last points (x0, y0)) - x0) * (5 / 1000).
Proof.
  rewrite left_drag_yaw by reflexivity. reflexivity.
Qed.

Lemma target_pan_ext (a1 b1 a2 b2 : R) (s1 s2 : State R) :
  target s1 = target s2 -> radius s1 = radius s2 -> camRot s1 = camRot s2 ->
  a1 = a2 -> b1 = b2 ->
  target (pan a1 b1 s1) = target (pan a2 b2 s2).
Proof.
  intros Ht Hr Hc -> ->. destruct s1, s2. cbn [target radius camRot] in Ht, Hr, Hc.
  subst. reflexivity.
Qed.

Lemma target_pan_pan (a b c d : R) (s : State R) :
  target (pan a b (pan c d s)) = target (pan (a + c) (b + d) s).
Proof.
  unfold pan at 1. rewrite panBasis_pan.
  unfold pan. cbn [target radius].
  destruct (panBasis s) as [right u]. destruct (target s) as [tx ty tz].
  cbn. f_equal; ring.
Qed.

Lemma right_drag_target (points : list (R * R)) (s : State R) :
  isDragging s = true -> dragButton s = 2%Z ->
  target (run (moves points) s)
  = target (pan (fst (List.last points (x2 (lastMouse s), y2 (lastMouse s)))
                 - x2 (lastMouse s))
                (snd (List.last points (x2 (lastMouse s), y2 (lastMouse s)))
                 - y2 (lastMouse s)) s).
Proof.
  revert s. induction points as [|p points IH]; intros s Hd Hb.
  - cbn [moves map run fold_left List.last fst snd].
    unfold pan. cbn [target].
    destruct (panBasis s) as [right u]. destruct (target s) as [tx ty tz].
    cbn. f_equal; ring.
  - rewrite run_moves_cons, last_cons.
    assert (Hm : mousemove (fst p) (snd p) s
                 = pan (fst p - x2 (lastMouse s)) (snd p - y2 (lastMouse s))
                     (mkState (target s) (radius s) (camRot s) (isDragging s)
                              (dragButton s) (mkVec2 (fst p) (snd p)))).
    { unfold mousemove. rewrite Hd. cbn [negb dragButton]. now rewrite Hb. }
    rewrite IH; rewrite Hm; try (cbn [pan isDragging dragButton]; assumption).
    rewrite target_pan_pan. cbn [pan lastMouse x2 y2].
    destruct p as [px py]. cbn [fst snd].
    apply target_pan_ext; try reflexivity; ring.
Qed.

(** The state the renderer starts in has a radius other than 0 and does
    not look straight up or down. *)
Lemma initial_regular :
  radius (initial (num := R)) <> 0 /\ cos (pitch (initial (num := R))) <> 0.
Proof.
  split.
  - cbn [initial radius lit RNumber]. rewrite Q2R_5. lra.
  - unfold pitch. cbn [initial camRot x2 lit RNumber]. rewrite Q2R_0, cos_0. lra.
Qed.

(** Pans add up. Where the Pan basis is defined, that is when the radius
    is not 0 and the camera does not look straight up or down (the code
    divides by the two lengths without a guard), two Pans in a row move
    the target as one Pan by the sum of their deltas, and a right-button
    drag through any points moves it as one Pan by the distance from the
    press to the last point. *)
Theorem pans_add_up (s : State R) :
  radius s <> 0 -> cos (pitch s) <> 0 ->
  (forall a b c d : R,
      target (pan a b (pan c d s)) = target (pan (a + c) (b + d) s)) /\
  (forall (x0 y0 : R) (points : list (R * R)),
      target (run (moves points) (mousedown 2 x0 y0 s))
      = target (pan (fst (List.last points (x0, y0)) - x0)
                    (snd (List.last points (x0, y0)) - y0) s)).
Proof.
  intros _ _. split.
  - intros a b c d. apply target_pan_pan.
  - intros x0 y0 points. rewrite right_drag_target by reflexivity.
    cbn [mousedown lastMouse x2 y2]. apply target_pan_ext; reflexivity.
Qed.

Lemma pans_add_up_witness :
  target (pan 1 2 (pan 3 4 (initial (num := R))))
  = target (pan (1 + 3) (2 + 4) (initial (num := R))).
Proof.
  exact (proj1 (pans_add_up initial (proj1 initial_regular) (proj2 initial_regular))
               1 2 3 4).
Defined.

End EventFacts.

(** * Properties of the matrices and the shaders *)

Module RenderFacts.
Import Camera Render Real RealMore RealFacts.
Local Open Scope R_scope.

Lemma Q2R_45 : Q2R 45 = 45.
Proof. unfold Q2R; cbn; lra. Qed.
Lemma Q2R_180 : Q2R 180 = 180.
Proof. unfold Q2R; cbn; lra. Qed.
Lemma Q2R_1000_0 : Q2R 1000.0 = 1000.
Proof. unfold Q2R; cbn; lra. Qed.
Lemma Q2R_3_0 : Q2R 3.0 = 3.
Proof. unfold Q2R; cbn; lra. Qed.
Lemma Q2R_1_5 : Q2R 1.5 = 3 / 2.
Proof. unfold Q2R; cbn; lra. Qed.
Lemma Q2R_2_0 : Q2R 2.0 = 2.
Proof. unfold Q2R; cbn; lra. Qed.
Lemma Q2R_8_0 : Q2R 8.0 = 8.
Proof. unfold Q2R; cbn; lra. Qed.
Lemma Q2R_quarter : Q2R 0.25 = 1 / 4.
Proof. unfold Q2R; cbn; lra. Qed.

Ltac q2r_render :=
  q2r; rewrite ?Q2R_45, ?Q2R_180, ?Q2R_1000_0, ?Q2R_3_0, ?Q2R_1_5, ?Q2R_2_0,
         ?Q2R_8_0, ?Q2R_quarter.

Lemma vec3_eq (a b c a' b' c' : R) :
  a = a' -> b = b' -> c = c' -> mkVec3 a b c = mkVec3 a' b' c'.
Proof. now intros -> -> ->. Qed.

Lemma guardLength_nonzero (len : R) : len <> 0 -> guardLength len = len.
Proof.
  intros H. unfold guardLength. cbn [strict_eq lit RNumber RNumberMore].
  rewrite Q2R_0. destruct (Req_dec_T len 0); [contradiction | reflexivity].
Qed.

Lemma guardLength_zero : guardLength 0 = 1.
Proof.
  unfold guardLength. cbn [strict_eq lit RNumber RNumberMore].
  rewrite Q2R_0, Q2R_1. destruct (Req_dec_T 0 0); [reflexivity | contradiction].
Qed.

Lemma offset_length (s : State R) :
  x3 (orbitOffset s) * x3 (orbitOffset s) + y3 (orbitOffset s) * y3 (orbitOffset s)
  + z3 (orbitOffset s) * z3 (orbitOffset s) = radius s * radius s.
Proof.
  unfold orbitOffset. cbn [x3 y3 z3]. cbn [fmul Math_cos Math_sin RNumber].
  pose proof (sin2_cos2 (y2 (camRot s))) as Hy.
  pose proof (sin2_cos2 (x2 (camRot s))) as Hp.
  unfold Rsqr in Hy, Hp.
  set (cy := cos (y2 (camRot s))) in *. set (sy := sin (y2 (camRot s))) in *.
  set (cp := cos (x2 (camRot s))) in *. set (sp := sin (x2 (camRot s))) in *.
  replace (cy * cp * radius s * (cy * cp * radius s) + sp * radius s * (sp * radius s)
           + sy * cp * radius s * (sy * cp * radius s))
    with (radius s * radius s * ((sy * sy + cy * cy) * (cp * cp) + sp * sp)) by ring.
  rewrite Hy, Rmult_1_l, (Rplus_comm (cp * cp)), Hp. ring.
Qed.

Lemma eye_minus_target (s : State R) :
  x3 (eyeOf s) - x3 (target s) = x3 (orbitOffset s) /\
  y3 (eyeOf s) - y3 (target s) = y3 (orbitOffset s) /\
  z3 (eyeOf s) - z3 (target s) = z3 (orbitOffset s).
Proof. unfold eyeOf, orbitOffset; cbn. repeat split; ring. Qed.

Lemma guarded_length (r : R) :
  r * r / guardLength (sqrt (r * r)) = Rabs r.
Proof.
  assert (Hs : sqrt (r * r) = Rabs r) by (rewrite <- sqrt_Rsqr_abs; reflexivity).
  rewrite Hs. destruct (Req_dec_T r 0) as [->|Hr].
  - rewrite Rabs_R0, guardLength_zero. lra.
  - assert (Ha : Rabs r <> 0) by now apply Rabs_no_R0.
    rewrite (guardLength_nonzero _ Ha).
    assert (Hsq : r * r = Rabs r * Rabs r).
    { pose proof (Rsqr_abs r) as H. unfold Rsqr in H. exact H. }
    rewrite Hsq. field. exact Ha.
Qed.

Lemma viewBasis_facts (s : State R) :
  let c := orbitOffset s in
  let r := fst (fst (viewBasis s)) in
  let u := snd (fst (viewBasis s)) in
  let f := snd (viewBasis s) in
  x3 r * x3 c + y3 r * y3 c + z3 r * z3 c = 0 /\
  x3 u * x3 c + y3 u * y3 c + z3 u * z3 c = 0 /\
  x3 f * x3 c + y3 f * y3 c + z3 f * z3 c = Rabs (radius s).
Proof.
  intros c r u f.
  destruct (eye_minus_target s) as (E0 & E1 & E2).
  pose proof (offset_length s) as HL. fold c in E0, E1, E2, HL.
  unfold r, u, f, viewBasis. cbn [fst snd x3 y3 z3].
  cbn [fsub fmul fadd fdiv lit Math_sqrt RNumber].
  rewrite E0, E1, E2, HL. q2r.
  pose proof (guarded_length (radius s)) as HG.
  set (L1 := guardLength (sqrt (radius s * radius s))) in *.
  match goal with |- context [guardLength (sqrt ?a)] => set (L2 := guardLength (sqrt a)) end.
  unfold Rdiv in *. repeat split.
  - ring.
  - ring.
  - rewrite <- HG, <- HL. ring.
Qed.

Lemma panBasis_offset (s : State R) :
  exists L1 L2 : R,
    L1 = sqrt (x3 (orbitOffset s) * x3 (orbitOffset s)
               + y3 (orbitOffset s) * y3 (orbitOffset s)
               + z3 (orbitOffset s) * z3 (orbitOffset s)) /\
    L2 = sqrt ((z3 (orbitOffset s) / L1) * (z3 (orbitOffset s) / L1)
               + (x3 (orbitOffset s) / L1) * (x3 (orbitOffset s) / L1)) /\
    fst (panBasis s)
    = mkVec3 (- (z3 (orbitOffset s) / L1) / L2) 0 (x3 (orbitOffset s) / L1 / L2) /\
    snd (panBasis s)
    = mkVec3 (- (y3 (orbitOffset s) / L1) * (x3 (orbitOffset s) / L1 / L2))
             ((z3 (orbitOffset s) / L1) * (z3 (orbitOffset s) / L1) / L2
              + (x3 (orbitOffset s) / L1) * (x3 (orbitOffset s) / L1) / L2)
             (- (y3 (orbitOffset s) / L1) * (z3 (orbitOffset s) / L1 / L2)).
Proof.
  unfold panBasis. fold (orbitOffset s).
  destruct (orbitOffset s) as [c0 c1 c2]. cbn [fst snd x3 y3 z3].
  cbn [fsub fmul fadd fdiv fneg fsqr lit Math_sqrt RNumber]. q2r.
  replace (- c0 * - c0 + - c1 * - c1 + - c2 * - c2)
    with (c0 * c0 + c1 * c1 + c2 * c2) by ring.
  set (L1 := sqrt (c0 * c0 + c1 * c1 + c2 * c2)).
  match goal with
  | |- context [sqrt ?a] =>
      lazymatch a with
      | (c0 * c0 + c1 * c1 + c2 * c2) => fail
      | _ => replace a with ((c2 / L1) * (c2 / L1) + (c0 / L1) * (c0 / L1))
               by (unfold Rdiv; ring)
      end
  end.
  set (L2 := sqrt (c2 / L1 * (c2 / L1) + c0 / L1 * (c0 / L1))).
  exists L1, L2. split; [reflexivity|]. split; [reflexivity|].
  split; apply vec3_eq; unfold Rdiv; ring.
Qed.

Lemma vec4_eq (a b c d a' b' c' d' : R) :
  a = a' -> b = b' -> c = c' -> d = d' -> mkVec4 a b c d = mkVec4 a' b' c' d'.
Proof. now intros -> -> -> ->. Qed.

Lemma mulMat4_view (s : State R) (p : Vec3 R) :
  let r := fst (fst (viewBasis s)) in
  let u := snd (fst (viewBasis s)) in
  let f := snd (viewBasis s) in
  let e := eyeOf s in
  mulMat4 (getViewMatrix s) (point p)
  = mkVec4 (x3 r * (x3 p - x3 e) + y3 r * (y3 p - y3 e) + z3 r * (z3 p - z3 e))
           (x3 u * (x3 p - x3 e) + y3 u * (y3 p - y3 e) + z3 u * (z3 p - z3 e))
           (x3 f * (x3 p - x3 e) + y3 f * (y3 p - y3 e) + z3 f * (z3 p - z3 e))
           1.
Proof.
  intros r u f e. unfold mulMat4, getViewMatrix, point.
  fold r u f e. cbn [map nth x4 y4 z4 w4].
  cbn [to_f32 fadd fmul fneg lit RNumber]. q2r. apply vec4_eq; ring.
Qed.

Lemma view_of_target (s : State R) :
  mulMat4 (getViewMatrix s) (point (target s)) = mkVec4 0 0 (- Rabs (radius s)) 1.
Proof.
  rewrite mulMat4_view.
  destruct (viewBasis_facts s) as (Hr & Hu & Hf).
  destruct (eye_minus_target s) as (E0 & E1 & E2).
  replace (x3 (target s) - x3 (eyeOf s)) with (- x3 (orbitOffset s)) by lra.
  replace (y3 (target s) - y3 (eyeOf s)) with (- y3 (orbitOffset s)) by lra.
  replace (z3 (target s) - z3 (eyeOf s)) with (- z3 (orbitOffset s)) by lra.
  apply vec4_eq; [| | |reflexivity]; lra.
Qed.

(** The view matrix frames the target. For any camera state, the view
    matrix sends the eye to the origin and the target to the point
    straight ahead on the view axis, at the orbit distance: [(0, 0,
    -|radius|)]. *)
Theorem view_matrix_frames_target (s : State R) :
  mulMat4 (getViewMatrix s) (point (eyeOf s)) = mkVec4 0 0 0 1 /\
  mulMat4 (getViewMatrix s) (point (target s)) = mkVec4 0 0 (- Rabs (radius s)) 1.
Proof.
  split; [|apply view_of_target].
  rewrite mulMat4_view. apply vec4_eq; ring.
Qed.

Lemma projection_numbers (cw ch : R) (v : Vec4 R) :
  let f := 1 / tan (45 * PI / 180 / 2) in
  mulMat4 (getProjectionMatrix cw ch) v
  = mkVec4 (f / (cw / ch) * x4 v) (f * y4 v)
           (- (10001 / 9999) * z4 v - 2000 / 9999 * w4 v)
           (- z4 v).
Proof.
  intros f. unfold mulMat4, getProjectionMatrix. cbn [map nth x4 y4 z4 w4].
  cbn [to_f32 fadd fsub fmul fdiv fneg lit Math_PI Math_tan RNumber RNumberMore].
  q2r_render. unfold f. apply vec4_eq; try (unfold Rdiv; ring); field.
Qed.

(** The depth range of the projection. For a canvas of any size and a
    point at view depth [z], the clip [w] is [-z]; the near plane, at
    0.1, lands on clip depth [-w] and the far plane, at 1000, on [+w];
    every depth between the two stays between [-w] and [+w]. *)
Theorem projection_depth_range (cw ch x y z : R) :
  let c := mulMat4 (getProjectionMatrix cw ch) (mkVec4 x y z 1) in
  w4 c = - z /\
  (z = - (1 / 10) -> z4 c = - w4 c) /\
  (z = - 1000 -> z4 c = w4 c) /\
  (- 1000 <= z <= - (1 / 10) -> - w4 c <= z4 c <= w4 c).
Proof.
  intros c. unfold c. rewrite projection_numbers. cbn [x4 y4 z4 w4].
  repeat split; intros; lra.
Qed.

(** The target stays in the middle of the picture. On a canvas whose
    width and height are not 0 and with a radius other than 0, a vertex
    placed at the orbit target is drawn, with the matrices of the frame
    loop, at clip [x = 0] and [y = 0] with [w] the orbit distance, and
    its point size is the larger of 2 and
    [avgScale * height * 1.5 / |radius|]. *)
Theorem target_at_screen_centre (s : State R) (cw ch h : R)
        (a_scale : Vec3 R) (a_opacity : R) (a_color : Vec3 R) :
  cw <> 0 -> ch <> 0 -> radius s <> 0 ->
  let out := drawVertex s cw ch h (target s) a_scale a_opacity a_color in
  x4 (gl_Position out) = 0 /\
  y4 (gl_Position out) = 0 /\
  w4 (gl_Position out) = Rabs (radius s) /\
  gl_PointSize out
  = Rmax 2 ((x3 a_scale + y3 a_scale + z3 a_scale) / 3 * h * (3 / 2) / Rabs (radius s)).
Proof.
  intros _ _ _ out. unfold out, drawVertex, vertexShader.
  cbn [gl_Position gl_PointSize].
  rewrite view_of_target, projection_numbers.
  cbn [x4 y4 z4 w4]. cbn [Math_max fadd fmul fdiv lit RNumber]. q2r_render.
  repeat split; try ring. now rewrite Ropp_involutive.
Qed.

(** The fragment shader. A fragment further than half the sprite from
    its centre is discarded; any other keeps the colour of its vertex,
    and for an opacity of 0 or more its alpha lies between
    [exp(-2) * opacity], at the rim, and [opacity], at the centre. *)
Theorem fragment_alpha (px py opacity : R) (color : Vec3 R) :
  let d := (px - 1 / 2) * (px - 1 / 2) + (py - 1 / 2) * (py - 1 / 2) in
  (1 / 4 < d -> fragmentShader (mkVec2 px py) color opacity = None) /\
  (d <= 1 / 4 ->
   exists alpha,
     fragmentShader (mkVec2 px py) color opacity
     = Some (mkVec4 (x3 color) (y3 color) (z3 color) alpha) /\
     (0 <= opacity -> exp (- 2) * opacity <= alpha <= opacity)).
Proof.
  intros d. unfold fragmentShader. cbn [x2 y2].
  cbn [gt fsub fadd fmul fneg Math_exp lit RNumber RNumberMore]. q2r_render.
  fold d. split; intros Hd.
  - destruct (Rgt_dec d (1 / 4)) as [_|Hn]; [reflexivity|]. exfalso. apply Hn. exact Hd.
  - destruct (Rgt_dec d (1 / 4)) as [Hg|_]; [unfold Rgt in Hg; lra|].
    eexists. split; [reflexivity|]. intros Ho.
    assert (Hd0 : 0 <= d).
    { unfold d. apply Rplus_le_le_0_compat;
        [exact (Rle_0_sqr (px - 1 / 2)) | exact (Rle_0_sqr (py - 1 / 2))]. }
    assert (Hup : exp (- d * 8) <= 1).
    { rewrite <- exp_0. destruct (Req_dec_T d 0) as [->|Hne].
      - right. f_equal. ring.
      - left. apply exp_increasing. lra. }
    assert (Hlo : exp (- 2) <= exp (- d * 8)).
    { destruct (Req_dec_T d (1 / 4)) as [->|Hne].
      - right. f_equal. lra.
      - left. apply exp_increasing. lra. }
    pose proof (exp_pos (- d * 8)). split; nra.
Qed.

Lemma viewBasis_offset (s : State R) (L1 L2 : R) :
  L1 = sqrt (x3 (orbitOffset s) * x3 (orbitOffset s)
             + y3 (orbitOffset s) * y3 (orbitOffset s)
             + z3 (orbitOffset s) * z3 (orbitOffset s)) ->
  L2 = sqrt ((z3 (orbitOffset s) / L1) * (z3 (orbitOffset s) / L1)
             + (x3 (orbitOffset s) / L1) * (x3 (orbitOffset s) / L1)) ->
  L1 <> 0 -> L2 <> 0 ->
  viewBasis s
  = (mkVec3 (z3 (orbitOffset s) / L1 / L2) 0 (- (x3 (orbitOffset s) / L1) / L2),
     mkVec3 (- (y3 (orbitOffset s) / L1) * (x3 (orbitOffset s) / L1 / L2))
            ((z3 (orbitOffset s) / L1) * (z3 (orbitOffset s) / L1) / L2
             + (x3 (orbitOffset s) / L1) * (x3 (orbitOffset s) / L1) / L2)
            (- (y3 (orbitOffset s) / L1) * (z3 (orbitOffset s) / L1 / L2)),
     mkVec3 (x3 (orbitOffset s) / L1) (y3 (orbitOffset s) / L1) (z3 (orbitOffset s) / L1)).
Proof.
  intros HL1 HL2 Hn1 Hn2.
  destruct (eye_minus_target s) as (E0 & E1 & E2).
  unfold viewBasis. cbn [x3 y3 z3].
  cbn [fsub fmul fadd fdiv lit Math_sqrt RNumber].
  rewrite E0, E1, E2, <- HL1, (guardLength_nonzero _ Hn1). q2r.
  match goal with
  | |- context [guardLength (sqrt ?a)] =>
      replace a with ((z3 (orbitOffset s) / L1) * (z3 (orbitOffset s) / L1)
                      + (x3 (orbitOffset s) / L1) * (x3 (orbitOffset s) / L1))
        by (unfold Rdiv; ring)
  end.
  rewrite <- HL2, (guardLength_nonzero _ Hn2).
  apply (f_equal2 pair); [apply (f_equal2 pair)|]; apply vec3_eq; unfold Rdiv; ring.
Qed.

Lemma basis_lengths_nonzero (s : State R) (L1 L2 : R) :
  L1 = sqrt (x3 (orbitOffset s) * x3 (orbitOffset s)
             + y3 (orbitOffset s) * y3 (orbitOffset s)
             + z3 (orbitOffset s) * z3 (orbitOffset s)) ->
  L2 = sqrt ((z3 (orbitOffset s) / L1) * (z3 (orbitOffset s) / L1)
             + (x3 (orbitOffset s) / L1) * (x3 (orbitOffset s) / L1)) ->
  radius s <> 0 -> cos (pitch s) <> 0 ->
  L1 <> 0 /\ L2 <> 0.
Proof.
  intros HL1 HL2 Hr Hc.
  assert (H1 : L1 = Rabs (radius s)).
  { rewrite HL1, offset_length. rewrite <- sqrt_Rsqr_abs. reflexivity. }
  assert (Hn1 : L1 <> 0) by (rewrite H1; now apply Rabs_no_R0).
  split; [exact Hn1|].
  assert (Hk : (z3 (orbitOffset s) / L1) * (z3 (orbitOffset s) / L1)
               + (x3 (orbitOffset s) / L1) * (x3 (orbitOffset s) / L1)
               = (cos (pitch s) * radius s / L1) * (cos (pitch s) * radius s / L1)).
  { unfold orbitOffset, pitch. cbn [x3 y3 z3]. cbn [fmul Math_cos Math_sin RNumber].
    pose proof (sin2_cos2 (y2 (camRot s))) as Hy. unfold Rsqr in Hy.
    set (cy := cos (y2 (camRot s))) in *. set (sy := sin (y2 (camRot s))) in *.
    set (cp := cos (x2 (camRot s))) in *.
    replace (sy * cp * radius s / L1 * (sy * cp * radius s / L1)
             + cy * cp * radius s / L1 * (cy * cp * radius s / L1))
      with ((sy * sy + cy * cy) * (cp * radius s / L1 * (cp * radius s / L1)))
      by (unfold Rdiv; ring).
    rewrite Hy. ring. }
  rewrite HL2, Hk.
  assert (Hne : cos (pitch s) * radius s / L1 <> 0).
  { unfold Rdiv. apply Rmult_integral_contrapositive_currified.
    - now apply Rmult_integral_contrapositive_currified.
    - now apply Rinv_neq_0_compat. }
  intros Hz. apply sqrt_eq_0 in Hz.
  - apply Rmult_integral in Hz. tauto.
  - apply Rle_0_sqr.
Qed.

(** Pan and view share their basis. When the radius is not 0 and the
    camera does not look straight up or down, the up vector the Pan
    branch computes is the up row of the view matrix, and its right
    vector is the right row of the view matrix with the sign turned. *)
Theorem pan_uses_view_basis (s : State R) :
  radius s <> 0 -> cos (pitch s) <> 0 ->
  let right := fst (fst (viewBasis s)) in
  let newUp := snd (fst (viewBasis s)) in
  fst (panBasis s) = mkVec3 (- x3 right) (- y3 right) (- z3 right) /\
  snd (panBasis s) = newUp.
Proof.
  intros Hr Hc.
  destruct (panBasis_offset s) as (L1 & L2 & HL1 & HL2 & Hright & Hu).
  destruct (basis_lengths_nonzero s L1 L2 HL1 HL2 Hr Hc) as (Hn1 & Hn2).
  rewrite (viewBasis_offset s L1 L2 HL1 HL2 Hn1 Hn2). cbn [fst snd x3 y3 z3].
  rewrite Hright, Hu. split; [|reflexivity].
  apply vec3_eq; unfold Rdiv; ring.
Qed.

(** The target moves across the line of sight. Where the Pan basis is
    defined (radius not 0, camera not looking straight up or down), for
    any deltas the step a Pan gives the target is at right angles to the
    offset from the target to the eye. *)
Theorem pan_moves_across_view (s : State R) (dx dy : R) :
  radius s <> 0 -> cos (pitch s) <> 0 ->
  (x3 (target (pan dx dy s)) - x3 (target s)) * x3 (orbitOffset s)
  + (y3 (target (pan dx dy s)) - y3 (target s)) * y3 (orbitOffset s)
  + (z3 (target (pan dx dy s)) - z3 (target s)) * z3 (orbitOffset s) = 0.
Proof.
  intros _ _.
  destruct (panBasis_offset s) as (L1 & L2 & _ & _ & Hright & Hu).
  unfold pan. rewrite Hright, Hu. cbn [target fst snd x3 y3 z3].
  cbn [fsub fmul lit RNumber].
  destruct (target s) as [tx ty tz]. cbn [x3 y3 z3].
  destruct (orbitOffset s) as [c0 c1 c2]. cbn [x3 y3 z3].
  unfold Rdiv. ring.
Qed.

Lemma projection_depth_range_witness :
  z4 (mulMat4 (getProjectionMatrix 800 600) (mkVec4 0 0 (- (1 / 10)) 1))
  = - w4 (mulMat4 (getProjectionMatrix 800 600) (mkVec4 0 0 (- (1 / 10)) 1)) /\
  z4 (mulMat4 (getProjectionMatrix 800 600) (mkVec4 0 0 (- 1000) 1))
  = w4 (mulMat4 (getProjectionMatrix 800 600) (mkVec4 0 0 (- 1000) 1)) /\
  - w4 (mulMat4 (getProjectionMatrix 800 600) (mkVec4 0 0 (- 5) 1))
  <= z4 (mulMat4 (getProjectionMatrix 800 600) (mkVec4 0 0 (- 5) 1))
  <= w4 (mulMat4 (getProjectionMatrix 800 600) (mkVec4 0 0 (- 5) 1)).
Proof.
  split; [|split].
  - exact (proj1 (proj2 (projection_depth_range 800 600 0 0 (- (1 / 10)))) eq_refl).
  - exact (proj1 (proj2 (proj2 (projection_depth_range 800 600 0 0 (- 1000)))) eq_refl).
  - apply (proj2 (proj2 (proj2 (projection_depth_range 800 600 0 0 (- 5))))). lra.
Defined.

Lemma fragment_alpha_witness :
  fragmentShader (mkVec2 1 1) (mkVec3 1 0 0) 1 = None /\
  exists alpha,
    fragmentShader (mkVec2 (1 / 2) (1 / 2)) (mkVec3 1 0 0) 1
    = Some (mkVec4 1 0 0 alpha) /\
    (0 <= 1 -> exp (- 2) * 1 <= alpha <= 1).
Proof.
  split.
  - apply (proj1 (fragment_alpha 1 1 1 (mkVec3 1 0 0))). lra.
  - apply (proj2 (fragment_alpha (1 / 2) (1 / 2) 1 (mkVec3 1 0 0))). lra.
Defined.

Lemma target_at_screen_centre_witness :
  x4 (gl_Position (drawVertex (initial (num := R)) 800 600 600
                              (target initial) (mkVec3 1 1 1) 1 (mkVec3 1 0 0))) = 0.
Proof.
  apply (target_at_screen_centre initial 800 600 600 (mkVec3 1 1 1) 1 (mkVec3 1 0 0)).
  - lra.
  - lra.
  - exact (proj1 EventFacts.initial_regular).
Defined.

Lemma pan_moves_across_view_witness :
  (x3 (target (pan 3 4 (initial (num := R)))) - x3 (target (initial (num := R))))
  * x3 (orbitOffset (initial (num := R)))
  + (y3 (target (pan 3 4 (initial (num := R)))) - y3 (target (initial (num := R))))
    * y3 (orbitOffset (initial (num := R)))
  + (z3 (target (pan 3 4 (initial (num := R)))) - z3 (target (initial (num := R))))
    * z3 (orbitOffset (initial (num := R))) = 0.
Proof.
  exact (pan_moves_across_view initial 3 4 (proj1 EventFacts.initial_regular)
                               (proj2 EventFacts.initial_regular)).
Defined.

Lemma pan_uses_view_basis_witness :
  fst (panBasis (initial (num := R)))
  = mkVec3 (- x3 (fst (fst (viewBasis (initial (num := R))))))
           (- y3 (fst (fst (viewBasis (initial (num := R))))))
           (- z3 (fst (fst (viewBasis (initial (num := R)))))) /\
  snd (panBasis (initial (num := R))) = snd (fst (viewBasis (initial (num := R)))).
Proof.
  apply pan_uses_view_basis.
  - exact (proj1 EventFacts.initial_regular).
  - exact (proj2 EventFacts.initial_regular).
Defined.

End RenderFacts.
